(** * Zeeguu API: the subscription digest mailer and the exercise-outcome endpoint

  A shallow embedding of

  - [tools/send_subscription_emails.py]: the batch script that mails every
    user the new articles matching their saved searches, and
  - [zeeguu/api/endpoints/exercises.py]: the [report_exercise_outcome]
    endpoint,

  together with the properties of both that the specification states.

  Conventions of the embedding.

  - A Python [str] is a [string]; [+] on strings is [++] in [string_scope].
  - A Python [dict] is an association list in insertion order with unique
    keys (module [PyDict]): assigning to a key that is already present keeps
    the position of the key, assigning to a new key appends it.
  - A naive [datetime] is the number of microseconds since the epoch, in [Z].
  - The collaborators that are not part of the shown code (the ORM lookups,
    the recommender, the mail transport, [Bookmark]) are [Variable]s of the
    sections below, and the calls made to them are recorded in a trace. *)

From Stdlib Require Import List String Ascii ZArith Bool Lia.
Import ListNotations.

Local Open Scope list_scope.
Local Open Scope string_scope.
Local Open Scope Z_scope.

(* ================================================================== *)
(** ** Python strings *)

Module PyStr.

(** The characters the templates need besides printable text. *)
Definition CR : string := String (ascii_of_nat 13) EmptyString.
Definition LF : string := String (ascii_of_nat 10) EmptyString.
Definition CRLF : string := CR ++ LF.
Definition DQUOTE : string := String (ascii_of_nat 34) EmptyString.

(** [sep.join(l)] *)
Fixpoint join (sep : string) (l : list string) : string :=
  match l with
  | [] => EmptyString
  | x :: r =>
      match r with
      | [] => x
      | _ :: _ => x ++ sep ++ join sep r
      end
  end.

(** The concatenation of a list of strings. *)
Fixpoint concat (l : list string) : string :=
  match l with
  | [] => EmptyString
  | x :: r => x ++ concat r
  end.

(** A list is true in a condition when it is not empty. *)
Definition truthy {A : Type} (l : list A) : bool :=
  match l with [] => false | _ :: _ => true end.

End PyStr.

(* ================================================================== *)
(** ** Python dictionaries with string keys *)

Module PyDict.

Definition dict (V : Type) : Type := list (string * V).

(** [d.get(k)], [None] when the key is absent. *)
Fixpoint get {V : Type} (d : dict V) (k : string) : option V :=
  match d with
  | [] => None
  | (k', v) :: r => if String.eqb k' k then Some v else get r k
  end.

(** [d.get(k, default)] *)
Definition get_default {V : Type} (d : dict V) (k : string) (default : V) : V :=
  match get d k with
  | Some v => v
  | None => default
  end.

(** [d[k] = v]: in place when [k] is present, at the end otherwise. *)
Fixpoint set {V : Type} (d : dict V) (k : string) (v : V) : dict V :=
  match d with
  | [] => [(k, v)]
  | (k', v') :: r =>
      if String.eqb k' k then (k', v) :: r else (k', v') :: set r k v
  end.

(** [d.keys()], [d.items()] and [len(d)], in iteration order. *)
Definition keys {V : Type} (d : dict V) : list string := map fst d.

Definition items {V : Type} (d : dict V) : list (string * V) := d.

Definition len {V : Type} (d : dict V) : Z := Z.of_nat (List.length d).

(** The order in which the keys of a sequence of assignments end up: every
    key at the place of its first assignment. *)
Definition key_added (ks : list string) (k : string) : list string :=
  if existsb (String.eqb k) ks then ks else (ks ++ [k])%list.

Definition insertion_order (l : list string) : list string :=
  fold_left key_added l [].

End PyDict.

(* ================================================================== *)
(** ** tools/send_subscription_emails.py *)

Module Digest.

Import PyStr PyDict.

(** *** The data the script reads *)

Record User := { id : Z; email : string }.

Record Search := { keywords : string }.

Record SearchSubscription := {
  user_id : Z;
  search : Search;
  receive_email : bool
}.

Record Article := {
  title : string;
  url : string;
  published_time : Z
}.

(** [datetime.timedelta(days=d)], in microseconds. *)
Definition timedelta_days (d : Z) : Z := d * 86400000000.

(** A digest entry: the (title, url) pairs of one keyword. *)
Definition DigestEntry : Type := list (string * string).

(** *** The calls the script makes to the outside *)

Inductive event : Type :=
| Search_query (user : User) (count : Z) (search_terms : string) (page : Z)
    (use_published_priority use_readability_priority : bool)
    (score_threshold : Z)
| Mail_sent (subject body to_email : string).

Definition is_mail (ev : event) : bool :=
  match ev with
  | Mail_sent _ _ _ => true
  | Search_query _ _ _ _ _ _ _ => false
  end.

Definition recipient (ev : event) : option string :=
  match ev with
  | Mail_sent _ _ to_email => Some to_email
  | Search_query _ _ _ _ _ _ _ => None
  end.

(** *** send_mail_new_articles_search *)

Definition notice (n : Z) : string :=
  "There are new articles related to your subscribed "
  ++ (if n >? 1 then "searches" else "search")
  ++ ". You can find your subscriptions here: https://www.zeeguu.org/articles/mySearches".

(** The f-string of one article. *)
Definition article_line (p : string * string) : string :=
  let '(t, url) := p in
  "- <a href=" ++ DQUOTE ++ url ++ DQUOTE ++ ">" ++ t ++ "</a>".

(** What one iteration of the loop over the items appends to the body. *)
Definition keyword_block (kv : string * DigestEntry) : string :=
  let '(keyword, titles) := kv in
  join CRLF
    (" " :: ("Search: '" ++ keyword ++ "': ") :: map article_line titles)
  ++ LF.

Definition mail_body (new_content_dict : dict DigestEntry) : string :=
  let body :=
    join CRLF ["Hi there,"; " "; notice (len new_content_dict); " "] in
  let body :=
    fold_left (fun body kv => body ++ keyword_block kv)
      (items new_content_dict) body in
  body ++ join CRLF [" "; " "; "Cheers,"; "The Zeeguu Team"].

(** The f-string of the subject, with its nested quotes (Python 3.12). *)
Definition mail_subject (new_content_dict : dict DigestEntry) : string :=
  "New articles for " ++ ("'" ++ join "','" (keys new_content_dict) ++ "'").

(** [ZeeguuMailer(subject, body, to_email).send()] is recorded in the trace. *)
Definition send_mail_new_articles_search
    (to_email : string) (new_content_dict : dict DigestEntry)
    (trace : list event) : list event :=
  let body := mail_body new_content_dict in
  let subject := mail_subject new_content_dict in
  (trace ++ [Mail_sent subject body to_email])%list.

(** The mail one item of the mapping is sent as. *)
Definition digest_mail (item : string * dict DigestEntry) : event :=
  let '(user_email, new_content_dict) := item in
  Mail_sent (mail_subject new_content_dict) (mail_body new_content_dict)
    user_email.

(** *** send_subscription_emails *)

(** The list comprehension over the candidates. *)
Definition new_articles_found
    (previous_day_datetime : Z) (articles : list Article) : list Article :=
  filter (fun article => published_time article >? previous_day_datetime)
    articles.

(** The list stored for a keyword. *)
Definition title_url_pairs (new_articles_found : list Article) : DigestEntry :=
  map (fun article => (title article, url article)) new_articles_found.

Section Script.

(** [User.find_by_id] and [article_search_for_user]. The script has no
    handler: an exception in a collaborator would end the run, and the
    two are taken to return. *)
Variable find_by_id : Z -> User.
Variable article_search_for_user :
  User -> Z -> string -> Z -> bool -> bool -> Z -> list Article.

(** The call to the recommender for one subscription. *)
Definition articles_for (subscription : SearchSubscription) : list Article :=
  article_search_for_user (find_by_id (user_id subscription)) 3
    (keywords (search subscription)) 0 true true 0.

Definition query_for (subscription : SearchSubscription) : event :=
  Search_query (find_by_id (user_id subscription)) 3
    (keywords (search subscription)) 0 true true 0.

(** The body of the loop over the subscriptions. *)
Definition subscription_step
    (previous_day_datetime : Z)
    (state : dict (dict DigestEntry) * list event)
    (subscription : SearchSubscription)
  : dict (dict DigestEntry) * list event :=
  let '(user_subscriptions, trace) := state in
  let user := find_by_id (user_id subscription) in
  let articles := articles_for subscription in
  let trace := (trace ++ [query_for subscription])%list in
  let new_articles_found := new_articles_found previous_day_datetime articles in
  if truthy new_articles_found then
    let updated_dict := get_default user_subscriptions (email user) [] in
    let updated_dict :=
      set updated_dict (keywords (search subscription))
        (title_url_pairs new_articles_found) in
    (set user_subscriptions (email user) updated_dict, trace)
  else (user_subscriptions, trace).

(** The loop over the subscriptions, from the empty mapping. *)
Definition aggregate
    (previous_day_datetime : Z) (all_subscriptions : list SearchSubscription)
  : dict (dict DigestEntry) * list event :=
  fold_left (subscription_step previous_day_datetime) all_subscriptions ([], []).

(** The script, from the rows of the subscription table and the clock. *)
Definition send_subscription_emails
    (table : list SearchSubscription) (now : Z) : list event :=
  let all_subscriptions := filter receive_email table in
  let current_datetime := now in
  let previous_day_datetime := current_datetime - timedelta_days 1 in
  let '(user_subscriptions, trace) :=
    aggregate previous_day_datetime all_subscriptions in
  fold_left
    (fun trace '(user_email, new_content_dict) =>
       send_mail_new_articles_search user_email new_content_dict trace)
    (items user_subscriptions) trace.

(** Names for what the properties below speak about: the address a
    subscription is filed under, its filtered candidates at a cutoff, and
    the mapping the loop ends with. *)
Definition owner_email (subscription : SearchSubscription) : string :=
  email (find_by_id (user_id subscription)).

Definition found_for (cutoff : Z) (subscription : SearchSubscription)
  : list Article :=
  new_articles_found cutoff (articles_for subscription).

Definition qualifies (cutoff : Z) (subscription : SearchSubscription) : bool :=
  truthy (found_for cutoff subscription).

Definition user_subscriptions_of
    (table : list SearchSubscription) (now : Z) : dict (dict DigestEntry) :=
  fst (aggregate (now - timedelta_days 1) (filter receive_email table)).

(** The digest filed under an address when the loop ends. *)
Definition digest_of
    (cutoff : Z) (all_subscriptions : list SearchSubscription) (address : string)
  : dict DigestEntry :=
  get_default (fst (aggregate cutoff all_subscriptions)) address [].

End Script.

(** The mails and the recommender queries of a trace. *)
Definition mails_of (trace : list event) : list event := filter is_mail trace.

Definition queries_of (trace : list event) : list event :=
  filter (fun ev => negb (is_mail ev)) trace.

(** The mails of a trace that go to one address. *)
Definition sent_to (address : string) (ev : event) : bool :=
  match ev with
  | Mail_sent _ _ to_email => String.eqb to_email address
  | Search_query _ _ _ _ _ _ _ => false
  end.

Definition mails_to (address : string) (trace : list event) : list event :=
  filter (sent_to address) trace.

End Digest.

(* ================================================================== *)
(** ** zeeguu/api/endpoints/exercises.py: report_exercise_outcome *)

Module Exercises.

(** *** Exceptions and the request form *)

Inductive exception : Type :=
| TypeError
| ValueError
| AttributeError
| Raised (what : string).

(** The Python values the handler binds: [None], a string or an integer. *)
Inductive value : Type :=
| VNone
| VStr (s : string)
| VInt (n : Z).

(** [request.form]: the fields of the request in the order received. *)
Definition MultiDict : Type := list (string * string).

(** [form.get(key, default)]: the first value of the key, or the default. *)
Fixpoint form_get_default (form : MultiDict) (key : string) (default : value)
  : value :=
  match form with
  | [] => default
  | (k, v) :: r =>
      if String.eqb k key then VStr v else form_get_default r key default
  end.

(** [form.get(key)] *)
Definition form_get (form : MultiDict) (key : string) : value :=
  form_get_default form key VNone.

(** *** Decimal digit strings, an instance of the two built-ins on ASCII text *)

Definition is_ascii_digit (c : ascii) : bool :=
  ((48 <=? nat_of_ascii c) && (nat_of_ascii c <=? 57))%nat.

Fixpoint all_ascii_digits (s : string) : bool :=
  match s with
  | EmptyString => true
  | String c r => is_ascii_digit c && all_ascii_digits r
  end.

Definition ascii_isdigit (s : string) : bool :=
  match s with
  | EmptyString => false
  | String _ _ => all_ascii_digits s
  end.

Fixpoint decimal_value (acc : Z) (s : string) : Z :=
  match s with
  | EmptyString => acc
  | String c r => decimal_value (10 * acc + Z.of_nat (nat_of_ascii c - 48)) r
  end.

Definition ascii_digits_int (s : string) : option Z :=
  if ascii_isdigit s then Some (decimal_value 0 s) else None.

(** *** The endpoint

    The route and its [requires_session] decorator belong to the framework;
    the model is the body of the function. *)

Section Endpoint.

(** The database behind [db_session] and the bookmarks in it. *)
Variable Db : Type.
Variable Bookmark : Type.

(** The built-ins [int] (on a string; [None] when it raises [ValueError])
    and [str.isdigit]. *)
Variable int_of_str : string -> option Z.
Variable str_isdigit : string -> bool.

(** [Bookmark.find] and [bookmark.report_exercise_outcome]; either may raise,
    and the second changes the database. *)
Variable Bookmark_find : value -> Db -> exception + Bookmark.
Variable Bookmark_report_exercise_outcome :
  Bookmark -> value -> value -> value -> Z -> value ->
  Db -> (exception + unit) * Db.

(** What a request sees and changes: the database and the error stream the
    traces are printed to. *)
Record world := { db : Db; stderr : list exception }.

(** A computation returns a value or raises, and changes the world. *)
Definition M (A : Type) : Type := world -> (exception + A) * world.

Definition ret {A : Type} (a : A) : M A := fun w => (inr a, w).

Definition raise {A : Type} (e : exception) : M A := fun w => (inl e, w).

Definition bind {A B : Type} (m : M A) (k : A -> M B) : M B :=
  fun w =>
    match m w with
    | (inl e, w') => (inl e, w')
    | (inr a, w') => k a w'
    end.

(** [try: body except: handler] with a bare [except]. *)
Definition try_except {A : Type} (body : M A) (handler : exception -> M A) : M A :=
  fun w =>
    match body w with
    | (inl e, w') => handler e w'
    | (inr a, w') => (inr a, w')
    end.

Notation "x <- m ;; k" := (bind m (fun x => k))
  (at level 61, m at next level, right associativity).

(** [int(v)] *)
Definition py_int (v : value) : M Z :=
  match v with
  | VNone => raise TypeError
  | VStr s =>
      match int_of_str s with
      | Some n => ret n
      | None => raise ValueError
      end
  | VInt n => ret n
  end.

(** [v.isdigit()]: only a string has the method. *)
Definition py_isdigit (v : value) : M bool :=
  match v with
  | VStr s => ret (str_isdigit s)
  | VNone | VInt _ => raise AttributeError
  end.

Definition find (bookmark_id : value) : M Bookmark :=
  fun w => (Bookmark_find bookmark_id (db w), w).

Definition report
    (bookmark : Bookmark) (source outcome solving_speed : value)
    (session_id : Z) (other_feedback : value) : M unit :=
  fun w =>
    let '(r, db') :=
      Bookmark_report_exercise_outcome bookmark source outcome solving_speed
        session_id other_feedback (db w) in
    (r, {| db := db'; stderr := stderr w |}).

(** [traceback.print_exc()] in a handler of [e]. *)
Definition print_exc (e : exception) : M unit :=
  fun w => (inr tt, {| db := db w; stderr := (stderr w ++ [e])%list |}).

Definition report_exercise_outcome (form : MultiDict) : M string :=
  let outcome := form_get_default form "outcome" (VStr EmptyString) in
  let source := form_get form "source" in
  let solving_speed := form_get form "solving_speed" in
  let bookmark_id := form_get form "bookmark_id" in
  let other_feedback := form_get form "other_feedback" in
  session_id <- py_int (form_get form "session_id") ;;
  is_digit <- py_isdigit solving_speed ;;
  let solving_speed := if negb is_digit then VInt 0 else solving_speed in
  try_except
    (bookmark <- find bookmark_id ;;
     _ <- report bookmark source outcome solving_speed session_id
            other_feedback ;;
     ret "OK")
    (fun e => _ <- print_exc e ;; ret "FAIL").

End Endpoint.

Arguments db {Db} _.
Arguments stderr {Db} _.
Arguments Build_world {Db} _ _.

End Exercises.

(* ================================================================== *)
(** ** Sample data *)

Module Samples.

Import Digest.

(** Three user records; the third has the address of the first. *)
Definition sample_find_by_id (uid : Z) : User :=
  {| id := uid;
     email := if Z.eqb uid 2 then "bob@example.org" else "ann@example.org" |}.

(** The clock of the sample run and the cutoff that follows from it. *)
Definition sample_now : Z := 1700000000000000.

Definition sample_cutoff : Z := sample_now - 86400000000.

Definition cats_today : Article :=
  {| title := "Cats today"; url := "https://news.example/cats-today";
     published_time := sample_now - 3600000000 |}.

Definition cats_last_week : Article :=
  {| title := "Cats last week"; url := "https://news.example/cats-old";
     published_time := sample_now - 7 * 86400000000 |}.

Definition cats_again : Article :=
  {| title := "More cats"; url := "https://news.example/more-cats";
     published_time := sample_now - 1 |}.

Definition dogs_today : Article :=
  {| title := "Dogs today"; url := "https://news.example/dogs-today";
     published_time := sample_cutoff + 1 |}.

Definition dogs_at_cutoff : Article :=
  {| title := "Dogs a day ago"; url := "https://news.example/dogs-day";
     published_time := sample_cutoff |}.

Definition birds_old : Article :=
  {| title := "Birds"; url := "https://news.example/birds";
     published_time := sample_cutoff - 5 |}.

(** A recommender: by keyword, and for cats also by user. *)
Definition sample_search (user : User) (count : Z) (search_terms : string)
    (page : Z) (use_published_priority use_readability_priority : bool)
    (score_threshold : Z) : list Article :=
  if String.eqb search_terms "cats" then
    if Z.eqb (id user) 3 then [cats_again] else [cats_today; cats_last_week]
  else if String.eqb search_terms "dogs" then [dogs_at_cutoff; dogs_today]
  else if String.eqb search_terms "birds" then [birds_old]
  else [].

Definition subscription (uid : Z) (terms : string) (mail : bool)
  : SearchSubscription :=
  {| user_id := uid; search := {| keywords := terms |}; receive_email := mail |}.

Definition ann_cats : SearchSubscription := subscription 1 "cats" true.
Definition ann_dogs : SearchSubscription := subscription 1 "dogs" true.
Definition bob_birds : SearchSubscription := subscription 2 "birds" true.
Definition bob_dogs_muted : SearchSubscription := subscription 2 "dogs" false.
Definition ann2_cats : SearchSubscription := subscription 3 "cats" true.

Definition sample_table : list SearchSubscription :=
  [ann_cats; ann_dogs; bob_birds; bob_dogs_muted].

Definition shared_address_table : list SearchSubscription :=
  [ann_cats; ann_dogs; ann2_cats].

(** A database of recorded outcomes for the endpoint, bookmarks named by
    their number, and stand-ins for the two methods of [Bookmark]: the lookup
    fails on an id that is not a number, the recording on an empty outcome. *)
Record exercise_row := {
  row_bookmark : Z;
  row_source : Exercises.value;
  row_outcome : Exercises.value;
  row_speed : Exercises.value;
  row_session : Z;
  row_feedback : Exercises.value
}.

Definition sample_db : Type := list exercise_row.

Definition sample_find (bookmark_id : Exercises.value) (d : sample_db)
  : Exercises.exception + Z :=
  match bookmark_id with
  | Exercises.VStr s =>
      match Exercises.ascii_digits_int s with
      | Some n => inr n
      | None => inl (Exercises.Raised "NoResultFound")
      end
  | Exercises.VInt n => inr n
  | Exercises.VNone => inl (Exercises.Raised "NoResultFound")
  end.

Definition sample_report (bookmark : Z)
    (source outcome solving_speed : Exercises.value) (session_id : Z)
    (other_feedback : Exercises.value) (d : sample_db)
  : (Exercises.exception + unit) * sample_db :=
  match outcome with
  | Exercises.VStr EmptyString => (inl (Exercises.Raised "IntegrityError"), d)
  | _ =>
      (inr tt,
       (d ++ [ {| row_bookmark := bookmark; row_source := source;
                  row_outcome := outcome; row_speed := solving_speed;
                  row_session := session_id;
                  row_feedback := other_feedback |} ])%list)
  end.

Definition sample_world : Exercises.world sample_db :=
  {| Exercises.db := []; Exercises.stderr := [] |}.

(** Requests: a complete one, one with a speed that is no digit string, one
    without [session_id], and one for a bookmark that does not exist. *)
Definition complete_form : Exercises.MultiDict :=
  [ ("outcome", "Correct"); ("source", "Recognize");
    ("solving_speed", "1500"); ("bookmark_id", "42"); ("session_id", "7") ].

Definition negative_speed_form : Exercises.MultiDict :=
  [ ("outcome", "Correct"); ("source", "Recognize");
    ("solving_speed", "-5"); ("bookmark_id", "42"); ("session_id", "7") ].

Definition no_session_form : Exercises.MultiDict :=
  [ ("outcome", "Correct"); ("source", "Recognize");
    ("solving_speed", "1500"); ("bookmark_id", "42") ].

Definition unknown_bookmark_form : Exercises.MultiDict :=
  [ ("outcome", "Correct"); ("source", "Recognize");
    ("solving_speed", "1500"); ("bookmark_id", "none"); ("session_id", "7") ].

End Samples.

(* ================================================================== *)
(** ** zeeguu/api/endpoints/exercises.py: get_exercise_log_for_bookmark *)

Module ExerciseLog.

Import PyDict Exercises.

(** *** Dates and their text *)

(** A [datetime] with the attributes the formatting reads. Python keeps
    [1 <= year <= 9999], [1 <= month <= 12] and [1 <= day <= 31]. *)
Record datetime := {
  year : Z;
  month : Z;
  day : Z;
  hour : Z;
  minute : Z;
  second : Z
}.

Definition digit (n : Z) : ascii := ascii_of_nat (48 + Z.to_nat n).

(** [%m] and [%d]: two digits, with a leading zero. *)
Definition two_digits (n : Z) : string :=
  String (digit (n / 10)) (String (digit (n mod 10)) EmptyString).

(** [%Y]: the year in decimal. Four digits are all a year can have; a year
    before 1000 is printed as the C library prints it, here without
    padding. *)
Fixpoint decimal (fuel : nat) (n : Z) (acc : string) : string :=
  match fuel with
  | O => acc
  | S fuel' =>
      let acc' := String (digit (n mod 10)) acc in
      if n <? 10 then acc' else decimal fuel' (n / 10) acc'
  end.

(** [t.strftime] with the format [%m/%d/%Y]. *)
Definition strftime_mdY (t : datetime) : string :=
  two_digits (month t) ++ "/" ++ two_digits (day t) ++ "/"
  ++ decimal 4 (year t) EmptyString.

(** *** The rows behind a bookmark *)

Module ExerciseOutcome.
Record t := { outcome : string }.
End ExerciseOutcome.

Module ExerciseSource.
Record t := { source : string }.
End ExerciseSource.

Record Exercise := {
  id : Z;
  outcome : ExerciseOutcome.t;
  source : ExerciseSource.t;
  solving_speed : value;
  time : datetime
}.

Record Bookmark := { exercise_log : list Exercise }.

(** The [dict(...)] built for one exercise, keys in the order written. *)
Definition exercise_entry (exercise : Exercise) : dict value :=
  [ ("id", VInt (id exercise));
    ("outcome", VStr (ExerciseOutcome.outcome (outcome exercise)));
    ("source", VStr (ExerciseSource.source (source exercise)));
    ("exercise_log_solving_speed", solving_speed exercise);
    ("time", VStr (strftime_mdY (time exercise))) ].

(** *** The endpoint *)

Section Endpoint.

(** [json_result] and the query [Bookmark.query.filter_by(id=...).first()],
    which gives [None] when no bookmark has the id. *)
Variable Response : Type.
Variable json_result : list (dict value) -> Response.
Variable Bookmark_first_by_id : string -> option Bookmark.

Definition get_exercise_log_for_bookmark (bookmark_id : string)
  : exception + Response :=
  match Bookmark_first_by_id bookmark_id with
  | None => inl AttributeError
  | Some bookmark =>
      let exercise_log_dict :=
        fold_left
          (fun exercise_log_dict exercise =>
             (exercise_log_dict ++ [exercise_entry exercise])%list)
          (exercise_log bookmark) [] in
      inr (json_result exercise_log_dict)
  end.

End Endpoint.

(** *** Sample rows *)

Definition new_year_morning : datetime :=
  {| year := 2024; month := 1; day := 5; hour := 9; minute := 30; second := 0 |}.

Definition new_year_evening : datetime :=
  {| year := 2024; month := 1; day := 5; hour := 21; minute := 0; second := 59 |}.

Definition sample_exercise : Exercise :=
  {| id := 11;
     outcome := {| ExerciseOutcome.outcome := "Correct" |};
     source := {| ExerciseSource.source := "Recognize" |};
     solving_speed := VInt 1500;
     time := new_year_morning |}.

Definition sample_bookmarks (bookmark_id : string) : option Bookmark :=
  if String.eqb bookmark_id "42"
  then Some {| exercise_log := [sample_exercise] |}
  else None.

End ExerciseLog.

(* ================================================================== *)
(** ** Facts about strings and dictionaries *)

Module PyFacts.

Import PyStr PyDict.

Lemma append_assoc (a b c : string) : (a ++ b) ++ c = a ++ (b ++ c).
Proof. induction a as [|ch a IH]; simpl; [reflexivity | now rewrite IH]. Qed.

Lemma append_empty_r (a : string) : a ++ EmptyString = a.
Proof. induction a as [|ch a IH]; simpl; [reflexivity | now rewrite IH]. Qed.

(** [join] puts the separator before every element but the first. *)
Lemma join_cons (sep x : string) (l : list string) :
  join sep (x :: l) = x ++ concat (map (fun y => sep ++ y) l).
Proof.
  revert x; induction l as [|y l IH]; intros x.
  - simpl. now rewrite append_empty_r.
  - change (join sep (x :: y :: l)) with (x ++ sep ++ join sep (y :: l)).
    rewrite IH. simpl. now rewrite append_assoc.
Qed.

(** Joining quoted words with a comma: the way the subject is built. *)
Lemma join_quoted (k : string) (ks : list string) :
  "'" ++ join "','" (k :: ks) ++ "'"
  = join "," (map (fun w => "'" ++ w ++ "'") (k :: ks)).
Proof.
  revert k; induction ks as [|k' ks IH]; intros k.
  - reflexivity.
  - change (join "','" (k :: k' :: ks)) with (k ++ "','" ++ join "','" (k' :: ks)).
    change (map (fun w => "'" ++ w ++ "'") (k :: k' :: ks))
      with (("'" ++ k ++ "'") :: map (fun w => "'" ++ w ++ "'") (k' :: ks)).
    change (join "," (("'" ++ k ++ "'") :: map (fun w => "'" ++ w ++ "'") (k' :: ks)))
      with (("'" ++ k ++ "'") ++ "," ++ join "," (map (fun w => "'" ++ w ++ "'") (k' :: ks))).
    rewrite <- IH. rewrite !append_assoc. reflexivity.
Qed.

Lemma fold_left_append (A : Type) (f : A -> string) (l : list A) (acc : string) :
  fold_left (fun body x => body ++ f x) l acc = acc ++ concat (map f l).
Proof.
  revert acc; induction l as [|x l IH]; intros acc; simpl.
  - now rewrite append_empty_r.
  - now rewrite IH, append_assoc.
Qed.

Lemma truthy_true (A : Type) (l : list A) : truthy l = true <-> l <> [].
Proof. destruct l; simpl; split; congruence. Qed.

(** *** Lookup after assignment *)

Section Dict.

Context {V : Type}.
Implicit Types (d : dict V) (k : string) (v : V).

Lemma get_set_same d k v : get (set d k v) k = Some v.
Proof.
  induction d as [|[k' v'] d IH]; simpl.
  - now rewrite String.eqb_refl.
  - destruct (String.eqb k' k) eqn:E; simpl; rewrite E; [reflexivity | exact IH].
Qed.

Lemma get_set_other d k k' v : k <> k' -> get (set d k v) k' = get d k'.
Proof.
  intros Hne. induction d as [|[k0 v0] d IH]; simpl.
  - destruct (String.eqb_spec k k'); [contradiction | reflexivity].
  - destruct (String.eqb_spec k0 k) as [->|Hk0]; simpl.
    + destruct (String.eqb_spec k k'); [contradiction | reflexivity].
    + destruct (String.eqb k0 k'); [reflexivity | exact IH].
Qed.

Lemma get_default_set_same d k v dflt : get_default (set d k v) k dflt = v.
Proof. unfold get_default. now rewrite get_set_same. Qed.

Lemma get_default_set_other d k k' v dflt :
  k <> k' -> get_default (set d k v) k' dflt = get_default d k' dflt.
Proof. intros H. unfold get_default. now rewrite get_set_other. Qed.

Lemma in_get_some d k v : NoDup (keys d) -> In (k, v) d -> get d k = Some v.
Proof.
  induction d as [|[k' v'] d IH]; simpl; [tauto|].
  intros Hnd [E|Hin].
  - inversion E; subst. now rewrite String.eqb_refl.
  - inversion Hnd as [|? ? Hnotin Hnd']; subst.
    destruct (String.eqb_spec k' k) as [->|Hne].
    + exfalso. apply Hnotin. change k with (fst (k, v)). now apply in_map.
    + auto.
Qed.

(** *** The keys after an assignment *)

Lemma keys_set d k v : keys (set d k v) = key_added (keys d) k.
Proof.
  unfold key_added, keys. induction d as [|[k' v'] d IH]; simpl; [reflexivity|].
  rewrite (String.eqb_sym k k').
  destruct (String.eqb k' k) eqn:E; simpl; [reflexivity|].
  rewrite IH.
  destruct (existsb (String.eqb k) (map fst d)); reflexivity.
Qed.

End Dict.

Lemma key_added_in (ks : list string) (k x : string) :
  In x (key_added ks k) <-> In x ks \/ x = k.
Proof.
  unfold key_added. destruct (existsb (String.eqb k) ks) eqn:E.
  - split; [tauto|]. intros [H| ->]; [exact H|].
    apply existsb_exists in E. destruct E as (y & Hin & Ey).
    apply String.eqb_eq in Ey. now subst.
  - rewrite in_app_iff. simpl. intuition congruence.
Qed.

Lemma key_added_nodup (ks : list string) (k : string) :
  NoDup ks -> NoDup (key_added ks k).
Proof.
  intros Hnd. unfold key_added. destruct (existsb (String.eqb k) ks) eqn:E.
  - exact Hnd.
  - apply NoDup_app; [exact Hnd | repeat constructor; simpl; tauto|].
    intros a Ha [->|[]].
    assert (existsb (String.eqb a) ks = true) as E'
      by (apply existsb_exists; exists a; split; [exact Ha | apply String.eqb_refl]).
    congruence.
Qed.

Lemma insertion_order_snoc (l : list string) (k : string) :
  insertion_order (l ++ [k]) = key_added (insertion_order l) k.
Proof. unfold insertion_order. now rewrite fold_left_app. Qed.

Lemma insertion_order_in (l : list string) (x : string) :
  In x (insertion_order l) <-> In x l.
Proof.
  induction l as [|k l IH] using rev_ind.
  - simpl. tauto.
  - rewrite insertion_order_snoc, key_added_in, in_app_iff, IH. simpl. intuition.
Qed.

Lemma insertion_order_nodup (l : list string) : NoDup (insertion_order l).
Proof.
  induction l as [|k l IH] using rev_ind.
  - constructor.
  - rewrite insertion_order_snoc. now apply key_added_nodup.
Qed.

End PyFacts.

(* ================================================================== *)
(** ** The digest script: how a run unfolds *)

Module DigestFacts.

Import PyStr PyDict PyFacts Digest.

Local Arguments String.append : simpl never.

(** *** Rendering *)

Lemma keyword_block_lines (keyword : string) (titles : DigestEntry) :
  keyword_block (keyword, titles)
  = " " ++ CRLF ++ ("Search: '" ++ keyword ++ "': ")
    ++ concat (map (fun p => CRLF ++ article_line p) titles) ++ LF.
Proof.
  unfold keyword_block. rewrite join_cons. cbn [map concat].
  rewrite map_map, !append_assoc. reflexivity.
Qed.

Lemma mail_body_blocks (d : dict DigestEntry) :
  mail_body d
  = join CRLF ["Hi there,"; " "; notice (len d); " "]
    ++ concat (map keyword_block d)
    ++ join CRLF [" "; " "; "Cheers,"; "The Zeeguu Team"].
Proof.
  unfold mail_body, items. rewrite fold_left_append. now rewrite append_assoc.
Qed.

Lemma send_loop (its : list (string * dict DigestEntry)) (trace : list event) :
  fold_left
    (fun trace '(user_email, new_content_dict) =>
       send_mail_new_articles_search user_email new_content_dict trace)
    its trace
  = (trace ++ map digest_mail its)%list.
Proof.
  revert trace; induction its as [|[e d] its IH]; intros trace; simpl.
  - now rewrite app_nil_r.
  - rewrite IH. unfold send_mail_new_articles_search.
    now rewrite <- app_assoc.
Qed.

Section Run.

Variable find_by_id : Z -> User.
Variable article_search_for_user :
  User -> Z -> string -> Z -> bool -> bool -> Z -> list Article.

Local Abbreviation step := (subscription_step find_by_id article_search_for_user).
Local Abbreviation agg := (aggregate find_by_id article_search_for_user).
Local Abbreviation run := (send_subscription_emails find_by_id article_search_for_user).
Local Abbreviation owner := (owner_email find_by_id).
Local Abbreviation found := (found_for find_by_id article_search_for_user).
Local Abbreviation qual := (qualifies find_by_id article_search_for_user).
Local Abbreviation digest := (digest_of find_by_id article_search_for_user).
Local Abbreviation query := (query_for find_by_id).
Local Abbreviation kw := (fun s : SearchSubscription => keywords (search s)).

Implicit Types (s : SearchSubscription) (l : list SearchSubscription).
Implicit Types (c now : Z) (e : string).

(** *** The loop over the subscriptions, one subscription at a time *)

Lemma aggregate_snoc c l s : agg c (l ++ [s]) = step c (agg c l) s.
Proof. unfold aggregate. now rewrite fold_left_app. Qed.

Lemma step_mapping c (st : dict (dict DigestEntry) * list event) s :
  fst (step c st s)
  = if qual c s
    then set (fst st) (owner s)
           (set (get_default (fst st) (owner s) []) (kw s)
              (title_url_pairs (found c s)))
    else fst st.
Proof.
  destruct st as [m tr]. unfold subscription_step, qualifies, found_for, owner_email.
  simpl. destruct (truthy _); reflexivity.
Qed.

Lemma step_trace c (st : dict (dict DigestEntry) * list event) s :
  snd (step c st s) = (snd st ++ [query s])%list.
Proof.
  destruct st as [m tr]. unfold subscription_step. simpl.
  destruct (truthy _); reflexivity.
Qed.

Lemma aggregate_trace c l : snd (agg c l) = map query l.
Proof.
  induction l as [|s l IH] using rev_ind; [reflexivity|].
  rewrite aggregate_snoc, step_trace, IH, map_app. reflexivity.
Qed.

(** The users of the mapping, in the order they are first filed. *)
Lemma aggregate_keys c l :
  keys (fst (agg c l)) = insertion_order (map owner (filter (qual c) l)).
Proof.
  induction l as [|s l IH] using rev_ind; [reflexivity|].
  rewrite aggregate_snoc, step_mapping, filter_app. cbn [filter].
  destruct (qual c s).
  - rewrite keys_set, IH, map_app. cbn [map].
    now rewrite insertion_order_snoc.
  - now rewrite app_nil_r.
Qed.

Lemma aggregate_keys_nodup c l : NoDup (keys (fst (agg c l))).
Proof. rewrite aggregate_keys. apply insertion_order_nodup. Qed.

(** *** The digest of one address, one subscription at a time *)

Lemma digest_snoc c l s e :
  digest c (l ++ [s]) e
  = if qual c s && String.eqb (owner s) e
    then set (digest c l e) (kw s) (title_url_pairs (found c s))
    else digest c l e.
Proof.
  unfold digest_of. rewrite aggregate_snoc, step_mapping.
  destruct (qual c s); simpl; [|reflexivity].
  destruct (String.eqb_spec (owner s) e) as [<-|Hne].
  - now rewrite get_default_set_same.
  - now rewrite get_default_set_other.
Qed.

(** The keywords of a digest, in the order they are first filed. *)
Lemma digest_keys c l e :
  keys (digest c l e)
  = insertion_order
      (map kw (filter (fun s => qual c s && String.eqb (owner s) e) l)).
Proof.
  induction l as [|s l IH] using rev_ind; [reflexivity|].
  rewrite digest_snoc, filter_app. cbn [filter].
  destruct (qual c s && String.eqb (owner s) e).
  - rewrite keys_set, IH, map_app. cbn [map].
    now rewrite insertion_order_snoc.
  - now rewrite app_nil_r.
Qed.

Lemma digest_keys_nodup c l e : NoDup (keys (digest c l e)).
Proof. rewrite digest_keys. apply insertion_order_nodup. Qed.

(** Every stored list was written by a subscription of that address and
    keyword with a non-empty filtered list. *)
Lemma digest_entry_origin c l e k (v : DigestEntry) :
  get (digest c l e) k = Some v ->
  exists s, In s l /\ qual c s = true /\ owner s = e /\ kw s = k
            /\ v = title_url_pairs (found c s).
Proof.
  induction l as [|s l IH] using rev_ind; [discriminate|].
  rewrite digest_snoc.
  destruct (qual c s) eqn:Q; simpl.
  - destruct (String.eqb_spec (owner s) e) as [He|He].
    + destruct (String.eqb_spec (kw s) k) as [Hk|Hk].
      * rewrite <- Hk, get_set_same. intros [= <-].
        exists s. rewrite in_app_iff. simpl. auto 10.
      * rewrite get_set_other by exact Hk. intros H.
        destruct (IH H) as (s' & Hin & H'). exists s'.
        rewrite in_app_iff. tauto.
    + intros H. destruct (IH H) as (s' & Hin & H'). exists s'.
      rewrite in_app_iff. tauto.
  - intros H. destruct (IH H) as (s' & Hin & H'). exists s'.
    rewrite in_app_iff. tauto.
Qed.

(** The last subscription with a non-empty filtered list that is filed under
    an address and a keyword decides the stored list. *)
Lemma digest_last_write c l1 s l2 :
  qual c s = true ->
  (forall s', In s' l2 -> qual c s' = true -> owner s' = owner s ->
              kw s' <> kw s) ->
  get (digest c (l1 ++ s :: l2) (owner s)) (kw s)
  = Some (title_url_pairs (found c s)).
Proof.
  intros Q. induction l2 as [|x l2 IH] using rev_ind; intros Hlast.
  - rewrite digest_snoc, Q.
    rewrite String.eqb_refl. simpl. apply get_set_same.
  - replace (l1 ++ s :: l2 ++ [x])%list with ((l1 ++ s :: l2) ++ [x])%list
      by (rewrite <- app_assoc; reflexivity).
    rewrite digest_snoc.
    assert (forall s', In s' l2 -> qual c s' = true -> owner s' = owner s ->
                       kw s' <> kw s) as Hlast'
      by (intros s' Hin; apply Hlast; rewrite in_app_iff; now left).
    specialize (IH Hlast').
    destruct (qual c x) eqn:Qx; simpl; [|exact IH].
    destruct (String.eqb_spec (owner x) (owner s)) as [He|He]; [|exact IH].
    rewrite get_set_other; [exact IH|].
    apply Hlast; [rewrite in_app_iff; simpl; auto | exact Qx | exact He].
Qed.

(** The items of the final mapping are the digests of its keys. *)
Lemma aggregate_item c l e (d : dict DigestEntry) :
  In (e, d) (fst (agg c l)) -> d = digest c l e.
Proof.
  intros Hin. unfold digest_of, get_default.
  now rewrite (in_get_some _ _ _ (aggregate_keys_nodup c l) Hin).
Qed.

Lemma aggregate_items c l :
  fst (agg c l) = map (fun e => (e, digest c l e)) (keys (fst (agg c l))).
Proof.
  assert (forall m : dict (dict DigestEntry),
            (forall e d, In (e, d) m -> d = digest c l e) ->
            m = map (fun e => (e, digest c l e)) (keys m)) as H.
  { induction m as [|[e d] m IH]; intros Hm; [reflexivity|].
    simpl. rewrite <- (Hm e d) by now left.
    f_equal. apply IH. intros e' d' Hin. apply Hm. now right. }
  apply H. intros e d. apply aggregate_item.
Qed.

(** A digest is built from the subscriptions filed under its address that
    have a non-empty filtered list, and from nothing else. *)
Lemma digest_fold c l e :
  digest c l e
  = fold_left
      (fun (d : dict DigestEntry) s =>
         set d (kw s) (title_url_pairs (found c s)))
      (filter (fun s => qual c s && String.eqb (owner s) e) l) [].
Proof.
  induction l as [|s l IH] using rev_ind; [reflexivity|].
  rewrite digest_snoc, filter_app. cbn [filter].
  destruct (qual c s && String.eqb (owner s) e).
  - rewrite fold_left_app, <- IH. reflexivity.
  - now rewrite app_nil_r.
Qed.

Lemma digest_no_entry c l e k :
  (forall s, In s l -> owner s = e -> kw s = k -> qual c s = false) ->
  get (digest c l e) k = None.
Proof.
  intros Hnone. destruct (get (digest c l e) k) as [v|] eqn:G; [|reflexivity].
  apply digest_entry_origin in G. destruct G as (s & Hin & Q & Ho & Hk & _).
  rewrite (Hnone s Hin Ho Hk) in Q. discriminate.
Qed.

Lemma aggregate_has_key c l s :
  In s l -> qual c s = true -> In (owner s, digest c l (owner s)) (fst (agg c l)).
Proof.
  intros Hin Q.
  assert (In (owner s) (keys (fst (agg c l)))) as Hk.
  { rewrite aggregate_keys, insertion_order_in. apply in_map.
    apply filter_In. auto. }
  rewrite aggregate_items. apply in_map_iff. exists (owner s). auto.
Qed.

(** *** The mails that go to one address *)

Lemma mails_to_queries e l : mails_to e (map query l) = [].
Proof. induction l as [|s l IH]; simpl; [reflexivity | exact IH]. Qed.

Lemma mails_to_absent e (m : dict (dict DigestEntry)) :
  ~ In e (keys m) -> mails_to e (map digest_mail m) = [].
Proof.
  induction m as [|[e' d'] m IH]; simpl; [reflexivity|].
  intros Hnot. destruct (String.eqb_spec e' e) as [->|Hne].
  - exfalso. apply Hnot. now left.
  - apply IH. tauto.
Qed.

Lemma mails_to_present e (d : dict DigestEntry) (m : dict (dict DigestEntry)) :
  NoDup (keys m) -> In (e, d) m ->
  mails_to e (map digest_mail m) = [digest_mail (e, d)].
Proof.
  induction m as [|[e' d'] m IH]; simpl; [tauto|].
  intros Hnd Hin. inversion Hnd as [|? ? Hnotin Hnd']; subst.
  destruct Hin as [E|Hin].
  - injection E as -> ->. rewrite String.eqb_refl.
    fold (mails_to e (map digest_mail m)).
    now rewrite (mails_to_absent e m Hnotin).
  - destruct (String.eqb_spec e' e) as [->|Hne].
    + exfalso. apply Hnotin. change e with (fst (e, d)). now apply in_map.
    + apply IH; assumption.
Qed.

(** *** The whole run *)

Lemma run_trace (table : list SearchSubscription) now :
  run table now
  = (map query (filter receive_email table)
     ++ map digest_mail (user_subscriptions_of find_by_id article_search_for_user table now))%list.
Proof.
  unfold send_subscription_emails, user_subscriptions_of.
  pose proof (aggregate_trace (now - timedelta_days 1) (filter receive_email table)) as Ht.
  destruct (agg (now - timedelta_days 1) (filter receive_email table)) as [m tr].
  simpl in *. subst tr. apply send_loop.
Qed.

End Run.

End DigestFacts.

(* ================================================================== *)
(** ** The digest script: the properties of the specification *)

Module DigestSpec.

Import PyStr PyDict PyFacts Digest DigestFacts Samples.

Local Arguments String.append : simpl never.

(** *** The renderer *)

Lemma len_single (d : dict DigestEntry) :
  List.length d = 1%nat -> (len d >? 1) = false.
Proof. unfold len. intros ->. reflexivity. Qed.

Lemma len_several (d : dict DigestEntry) :
  (2 <= List.length d)%nat -> (len d >? 1) = true.
Proof. unfold len. intros H. rewrite Z.gtb_ltb. apply Z.ltb_lt. lia. Qed.

(** C6. The notice, the third line of the body, says [search] when the
    mapping has exactly one keyword and [searches] when it has two or
    more. *)
Theorem notice_singular_or_plural
    (to_email : string) (d : dict DigestEntry) (trace : list event) :
  (List.length d = 1%nat ->
   exists subject rest,
     send_mail_new_articles_search to_email d trace
     = app trace
          [Mail_sent subject
              ("Hi there," ++ CRLF ++ " " ++ CRLF
               ++ "There are new articles related to your subscribed search. You can find your subscriptions here: https://www.zeeguu.org/articles/mySearches"
               ++ CRLF ++ rest)
              to_email])
  /\ ((2 <= List.length d)%nat ->
      exists subject rest,
        send_mail_new_articles_search to_email d trace
        = app trace
             [Mail_sent subject
                 ("Hi there," ++ CRLF ++ " " ++ CRLF
                  ++ "There are new articles related to your subscribed searches. You can find your subscriptions here: https://www.zeeguu.org/articles/mySearches"
                  ++ CRLF ++ rest)
                 to_email]).
Proof.
  split; intros Hlen;
    exists (mail_subject d),
      (" " ++ concat (map keyword_block d)
       ++ join CRLF [" "; " "; "Cheers,"; "The Zeeguu Team"]);
    unfold send_mail_new_articles_search; do 3 f_equal;
    rewrite mail_body_blocks; unfold notice.
  - rewrite (len_single d Hlen). cbn [join]. rewrite !append_assoc. reflexivity.
  - rewrite (len_several d Hlen). cbn [join]. rewrite !append_assoc. reflexivity.
Qed.

(** C7. For a non-empty mapping the mail is the template filled in: the
    greeting and the notice, then for every keyword of the mapping a block
    with the header line [Search: 'keyword': ] and one anchor line per
    article, then the signature; the subject lists every keyword of the
    mapping once, in quotes, separated by commas. *)
Theorem mail_matches_template
    (to_email : string) (d : dict DigestEntry) (trace : list event) :
  d <> [] ->
  send_mail_new_articles_search to_email d trace
  = app trace
       [Mail_sent
           ("New articles for "
            ++ join "," (map (fun keyword => "'" ++ keyword ++ "'") (keys d)))
           ("Hi there," ++ CRLF ++ " " ++ CRLF ++ notice (len d) ++ CRLF ++ " "
            ++ concat
                 (map (fun kv : string * DigestEntry =>
                         " " ++ CRLF ++ "Search: '" ++ fst kv ++ "': "
                         ++ concat
                              (map (fun p : string * string =>
                                      CRLF ++ "- <a href=" ++ DQUOTE ++ snd p
                                      ++ DQUOTE ++ ">" ++ fst p ++ "</a>")
                                 (snd kv))
                         ++ LF)
                    d)
            ++ " " ++ CRLF ++ " " ++ CRLF ++ "Cheers," ++ CRLF
            ++ "The Zeeguu Team")
           to_email]
  /\ List.length (keys d) = List.length d.
Proof.
  intros Hne. split; [|apply length_map].
  unfold send_mail_new_articles_search. do 3 f_equal.
  - unfold mail_subject. f_equal.
    destruct d as [|[k v] d]; [contradiction|].
    unfold keys. cbn [map fst]. apply (join_quoted k (map fst d)).
  - rewrite mail_body_blocks. cbn [join]. rewrite !append_assoc.
    do 6 f_equal.
    rewrite (map_ext keyword_block
               (fun kv : string * DigestEntry =>
                  " " ++ CRLF ++ "Search: '" ++ fst kv ++ "': "
                  ++ concat
                       (map (fun p : string * string =>
                               CRLF ++ "- <a href=" ++ DQUOTE ++ snd p
                               ++ DQUOTE ++ ">" ++ fst p ++ "</a>")
                          (snd kv))
                  ++ LF)); [reflexivity|].
    intros [k v]. rewrite keyword_block_lines. cbn [fst snd].
    rewrite !append_assoc. do 7 f_equal.
    apply map_ext. intros [t u]. reflexivity.
Qed.

Section Claims.

Variable find_by_id : Z -> User.
Variable article_search_for_user :
  User -> Z -> string -> Z -> bool -> bool -> Z -> list Article.

Local Abbreviation run := (send_subscription_emails find_by_id article_search_for_user).
Local Abbreviation final := (user_subscriptions_of find_by_id article_search_for_user).
Local Abbreviation owner := (owner_email find_by_id).
Local Abbreviation candidates := (articles_for find_by_id article_search_for_user).
Local Abbreviation found := (found_for find_by_id article_search_for_user).
Local Abbreviation qual := (qualifies find_by_id article_search_for_user).
Local Abbreviation digest := (digest_of find_by_id article_search_for_user).
Local Abbreviation query := (query_for find_by_id).
Local Abbreviation kw := (fun s : SearchSubscription => keywords (search s)).

Implicit Types (s : SearchSubscription) (table : list SearchSubscription).
Implicit Types (now : Z) (e : string).

(** The cutoff of a run is its clock minus 24 hours. *)
Lemma cutoff_24h now : now - timedelta_days 1 = now - 24 * 3600 * 1000000.
Proof. reflexivity. Qed.

(** What is stored in the final mapping comes from a subscription with
    the flag set, filed under that address and keyword. *)
Lemma final_entry_origin table now e (d : dict DigestEntry) k (v : DigestEntry) :
  In (e, d) (final table now) -> In (k, v) d ->
  exists s, In s table /\ receive_email s = true /\ owner s = e /\ kw s = k
            /\ found (now - timedelta_days 1) s <> []
            /\ v = title_url_pairs (found (now - timedelta_days 1) s).
Proof.
  intros He Hk. unfold user_subscriptions_of in He.
  apply aggregate_item in He. subst d.
  apply in_get_some in Hk; [|apply digest_keys_nodup].
  apply digest_entry_origin in Hk.
  destruct Hk as (s & Hin & Q & Ho & Hkw & Hv).
  apply filter_In in Hin. destruct Hin as [Hin Hflag].
  exists s. repeat split; try assumption.
  now apply truthy_true.
Qed.

(** The addresses of the final mapping, in order. *)
Lemma final_keys table now :
  keys (final table now)
  = insertion_order
      (map owner (filter (qual (now - timedelta_days 1))
                    (filter receive_email table))).
Proof. apply aggregate_keys. Qed.

Lemma mail_in_run table now subject body e :
  In (Mail_sent subject body e) (run table now) <->
  exists d, In (e, d) (final table now)
            /\ subject = mail_subject d /\ body = mail_body d.
Proof.
  rewrite run_trace, in_app_iff. split.
  - intros [H|H].
    + apply in_map_iff in H. destruct H as (s & Hs & _). discriminate Hs.
    + apply in_map_iff in H. destruct H as ([e' d] & Hm & Hin).
      simpl in Hm. injection Hm as <- <- <-. exists d. auto.
  - intros (d & Hin & -> & ->). right.
    apply in_map_iff. exists (e, d). auto.
Qed.

(** C1. A candidate of a subscription is kept by the recency filter exactly
    when its [published_time] is strictly greater than the cutoff, the clock
    of the run minus 24 hours; a candidate published at or before the cutoff
    is dropped, the kept candidates keep their order, and every pair stored
    in the final mapping of a run is the title and url of a kept candidate. *)
Theorem recency_filter_strict table now :
  let cutoff := now - 24 * 3600 * 1000000 in
  (forall s (a : Article),
      In a (found cutoff s) <-> In a (candidates s) /\ published_time a > cutoff)
  /\ (forall s (a : Article),
         published_time a <= cutoff -> ~ In a (found cutoff s))
  /\ (forall s,
         found cutoff s
         = filter (fun a => cutoff <? published_time a) (candidates s))
  /\ (forall e (d : dict DigestEntry) k (v : DigestEntry) (t u : string),
         In (e, d) (final table now) -> In (k, v) d -> In (t, u) v ->
         exists s (a : Article),
           In s table /\ In a (candidates s)
           /\ published_time a > cutoff /\ title a = t /\ url a = u).
Proof.
  intros cutoff.
  assert (forall s (a : Article),
             In a (found cutoff s)
             <-> In a (candidates s) /\ published_time a > cutoff) as Hiff.
  { intros s a. unfold found_for, new_articles_found.
    rewrite filter_In, Z.gtb_ltb, Z.ltb_lt. intuition lia. }
  split; [exact Hiff | split; [| split]].
  - intros s a Hle Hin. apply Hiff in Hin. lia.
  - intros s. unfold found_for, new_articles_found.
    apply filter_ext. intros a. apply Z.gtb_ltb.
  - intros e d k v t u He Hk Ht.
    destruct (final_entry_origin _ _ _ _ _ _ He Hk)
      as (s & Hin & _ & _ & _ & _ & ->).
    unfold title_url_pairs in Ht. apply in_map_iff in Ht.
    destruct Ht as (a & Ha & Hfound). injection Ha as <- <-.
    rewrite cutoff_24h in Hfound. apply Hiff in Hfound.
    exists s, a. tauto.
Qed.

(** C2. A mail is dispatched to an address in a run exactly when some
    subscription with the flag set that is filed under the address has a
    non-empty filtered list; so a user all of whose subscriptions yield no
    new article gets no mail. *)
Theorem mail_only_with_new_articles table now e :
  ((exists subject body, In (Mail_sent subject body e) (run table now))
   <-> (exists s, In s table /\ receive_email s = true /\ owner s = e
                  /\ found (now - 24 * 3600 * 1000000) s <> []))
  /\ ((forall s, In s table -> receive_email s = true -> owner s = e ->
                 found (now - 24 * 3600 * 1000000) s = []) ->
      forall ev, In ev (run table now) -> recipient ev <> Some e)
  /\ (forall uid,
         (forall s, In s table -> receive_email s = true ->
                    owner s = email (find_by_id uid) -> user_id s = uid) ->
         (forall s, In s table -> receive_email s = true -> user_id s = uid ->
                    found (now - 24 * 3600 * 1000000) s = []) ->
         forall ev, In ev (run table now) ->
                    recipient ev <> Some (email (find_by_id uid))).
Proof.
  rewrite <- cutoff_24h.
  assert ((exists subject body, In (Mail_sent subject body e) (run table now))
          <-> (exists s, In s table /\ receive_email s = true /\ owner s = e
                         /\ found (now - timedelta_days 1) s <> [])) as Hiff.
  { split.
    - intros (subject & body & Hin). apply mail_in_run in Hin.
      destruct Hin as (d & Hin & _).
      assert (In e (keys (final table now))) as Hk
        by (change e with (fst (e, d)); now apply in_map).
      rewrite final_keys, insertion_order_in in Hk.
      apply in_map_iff in Hk. destruct Hk as (s & Ho & Hs).
      apply filter_In in Hs. destruct Hs as [Hs Q].
      apply filter_In in Hs. destruct Hs as [Hs Hflag].
      exists s. repeat split; try assumption. now apply truthy_true.
    - intros (s & Hs & Hflag & Ho & Hne).
      assert (In e (keys (final table now))) as Hk.
      { rewrite final_keys, insertion_order_in. apply in_map_iff.
        exists s. split; [exact Ho|]. apply filter_In. split.
        - apply filter_In. auto.
        - now apply truthy_true. }
      unfold keys in Hk. apply in_map_iff in Hk.
      destruct Hk as ([e' d] & He' & Hin). simpl in He'. subst e'.
      exists (mail_subject d), (mail_body d). apply mail_in_run. eauto. }
  assert (forall e',
             (forall s, In s table -> receive_email s = true -> owner s = e' ->
                        found (now - timedelta_days 1) s = []) ->
             forall ev, In ev (run table now) -> recipient ev <> Some e') as Hnomail.
  { intros e' Hnone ev Hev Hr.
    destruct ev as [| subject body e'']; [discriminate|].
    simpl in Hr. injection Hr as ->.
    apply mail_in_run in Hev. destruct Hev as (d & Hin & _).
    assert (In e' (keys (final table now))) as Hk
      by (change e' with (fst (e', d)); now apply in_map).
    rewrite final_keys, insertion_order_in in Hk.
    apply in_map_iff in Hk. destruct Hk as (s & Ho & Hs).
    apply filter_In in Hs. destruct Hs as [Hs Q].
    apply filter_In in Hs. destruct Hs as [Hs Hflag].
    apply truthy_true in Q. apply Q. now apply Hnone. }
  split; [exact Hiff|]. split; [apply Hnomail|].
  intros uid Hown Hnone. apply Hnomail.
  intros s Hs Hflag Ho. apply Hnone; auto.
Qed.

(** C3. A subscription whose [receive_email] flag is false leaves no mark on
    a run: the trace of the run, recommender queries and mails alike, is the
    trace of the run without that row, and the queries of a run are those of
    the rows with the flag set, one each, in order. *)
Theorem muted_subscription_ignored table1 s table2 now :
  receive_email s = false ->
  run (table1 ++ s :: table2) now = run (table1 ++ table2) now
  /\ queries_of (run (table1 ++ s :: table2) now)
     = map query (filter receive_email (table1 ++ table2))
  /\ ~ In s (filter receive_email (table1 ++ s :: table2)).
Proof.
  intros Hflag.
  assert (filter receive_email (table1 ++ s :: table2)
          = filter receive_email (table1 ++ table2)) as Hf.
  { rewrite !filter_app. simpl. now rewrite Hflag. }
  split; [|split].
  - unfold send_subscription_emails. now rewrite Hf.
  - rewrite run_trace, Hf. unfold queries_of. rewrite filter_app.
    assert (forall l, filter (fun ev => negb (is_mail ev)) (map query l) = map query l) as Hq
      by (induction l as [|x l IH]; simpl; [reflexivity | now rewrite IH]).
    assert (forall m, filter (fun ev => negb (is_mail ev)) (map digest_mail m) = []) as Hm
      by (induction m as [|[e d] m IH]; simpl; [reflexivity | exact IH]).
    now rewrite Hq, Hm, app_nil_r.
  - rewrite filter_In. intros [_ H]. congruence.
Qed.

Lemma enabled_final table now s :
  In s (filter receive_email table) ->
  qual (now - timedelta_days 1) s = true ->
  In (owner s,
      digest (now - timedelta_days 1) (filter receive_email table) (owner s))
     (final table now).
Proof. intros Hin Q. now apply aggregate_has_key. Qed.

Lemma run_mails_to table now e :
  mails_to e (run table now) = mails_to e (map digest_mail (final table now)).
Proof.
  rewrite run_trace. unfold mails_to at 1. rewrite filter_app.
  change (filter (sent_to e) (map query (filter receive_email table)))
    with (mails_to e (map query (filter receive_email table))).
  now rewrite mails_to_queries.
Qed.

Lemma same_user_same_found c s s' :
  user_id s' = user_id s -> kw s' = kw s -> found c s' = found c s.
Proof.
  intros Hu Hk. unfold found_for, articles_for. cbn beta in Hk.
  now rewrite Hu, Hk.
Qed.

(** C4. The mail keeps the order of the run. The mail sent to an address is
    rendered from the digest filed under it; its keyword blocks follow one
    another in the order in which the keywords were first filed, and the
    lines of a block are those of the filtered candidates of a subscription,
    in their order. In particular, when the subscriptions of an address that
    have new articles are one for cats and then one for dogs, the cats block
    comes right before the dogs block and the subject lists the two in that
    order. *)
Theorem digest_order_preserved table now :
  let cutoff := now - 24 * 3600 * 1000000 in
  let enabled := filter receive_email table in
  (forall subject body e,
      In (Mail_sent subject body e) (run table now) ->
      let d := digest cutoff enabled e in
      subject = mail_subject d
      /\ body
         = join CRLF ["Hi there,"; " "; notice (len d); " "]
           ++ concat (map keyword_block d)
           ++ join CRLF [" "; " "; "Cheers,"; "The Zeeguu Team"]
      /\ keys d
         = insertion_order
             (map kw
                (filter (fun s => qual cutoff s && String.eqb (owner s) e)
                   enabled))
      /\ forall k (v : DigestEntry),
           In (k, v) d ->
           keyword_block (k, v)
           = " " ++ CRLF ++ ("Search: '" ++ k ++ "': ")
             ++ concat (map (fun p => CRLF ++ article_line p) v) ++ LF
           /\ exists s,
                In s enabled /\ owner s = e /\ kw s = k
                /\ v = map (fun a => (title a, url a))
                         (filter (fun a => published_time a >? cutoff)
                            (candidates s)))
  /\ (forall e s1 s2,
         filter (fun s => qual cutoff s && String.eqb (owner s) e) enabled
         = [s1; s2] ->
         kw s1 = "cats" -> kw s2 = "dogs" ->
         In (Mail_sent "New articles for 'cats','dogs'"
               (join CRLF ["Hi there,"; " "; notice 2; " "]
                ++ keyword_block ("cats", title_url_pairs (found cutoff s1))
                ++ keyword_block ("dogs", title_url_pairs (found cutoff s2))
                ++ join CRLF [" "; " "; "Cheers,"; "The Zeeguu Team"])
               e)
            (run table now)).
Proof.
  intros cutoff enabled. subst cutoff enabled. rewrite <- cutoff_24h.
  split.
  - intros subject body e Hin d. subst d.
    apply mail_in_run in Hin. destruct Hin as (d & Hin & -> & ->).
    unfold user_subscriptions_of in Hin. apply aggregate_item in Hin.
    rewrite <- Hin. split; [reflexivity|].
    split; [apply mail_body_blocks|].
    split; [rewrite Hin; apply digest_keys|].
    intros k v Hk. split; [apply keyword_block_lines|].
    rewrite Hin in Hk.
    apply in_get_some in Hk; [|apply digest_keys_nodup].
    apply digest_entry_origin in Hk.
    destruct Hk as (s & Hs & _ & Ho & Hkw & Hv).
    exists s. auto.
  - intros e s1 s2 Hf Hk1 Hk2.
    assert (In s1 (filter (fun s => qual (now - timedelta_days 1) s
                                    && String.eqb (owner s) e)
                     (filter receive_email table))) as H1
      by (rewrite Hf; now left).
    apply filter_In in H1. destruct H1 as [H1 Hq].
    apply andb_true_iff in Hq. destruct Hq as [Q Ho].
    apply String.eqb_eq in Ho.
    pose proof (enabled_final table now s1 H1 Q) as Hfin. rewrite Ho in Hfin.
    apply mail_in_run.
    exists (digest (now - timedelta_days 1) (filter receive_email table) e).
    split; [exact Hfin|].
    rewrite digest_fold, Hf. cbn [fold_left]. cbn beta.
    rewrite Hk1, Hk2.
    change (set (set [] "cats" (title_url_pairs (found (now - timedelta_days 1) s1)))
              "dogs" (title_url_pairs (found (now - timedelta_days 1) s2)))
      with [("cats", title_url_pairs (found (now - timedelta_days 1) s1));
            ("dogs", title_url_pairs (found (now - timedelta_days 1) s2))].
    split; [reflexivity|].
    rewrite mail_body_blocks. cbn [map concat].
    rewrite append_empty_r, !append_assoc. reflexivity.
Qed.

(** C5. In the mapping a run ends with, every address is a key once and
    every keyword is a key of a digest once; the list stored under an address
    and a keyword is the one written last, that is by the last subscription
    filed under them (with one user record behind the address, that is the
    last subscription of the user with the keyword); and the run sends one
    mail per key of the mapping, in the order of the keys, whatever the
    number of subscriptions. *)
Theorem one_mail_per_user table now :
  let cutoff := now - 24 * 3600 * 1000000 in
  let enabled := filter receive_email table in
  let m := final table now in
  NoDup (keys m)
  /\ (forall e (d : dict DigestEntry), In (e, d) m -> NoDup (keys d))
  /\ (forall l1 s l2,
         enabled = (l1 ++ s :: l2)%list ->
         found cutoff s <> [] ->
         (forall s', In s' l2 -> found cutoff s' <> [] -> owner s' = owner s ->
                     kw s' <> kw s) ->
         exists d, In (owner s, d) m
                   /\ get d (kw s) = Some (title_url_pairs (found cutoff s)))
  /\ (forall l1 s l2,
         enabled = (l1 ++ s :: l2)%list ->
         (forall s', In s' l2 -> owner s' = owner s -> kw s' <> kw s) ->
         (forall s', In s' l1 -> owner s' = owner s -> kw s' = kw s ->
                     user_id s' = user_id s) ->
         get (digest cutoff enabled (owner s)) (kw s)
         = if truthy (found cutoff s)
           then Some (title_url_pairs (found cutoff s))
           else None)
  /\ mails_of (run table now) = map digest_mail m
  /\ (forall e, In e (keys m) ->
                exists d, In (e, d) m
                          /\ mails_to e (run table now) = [digest_mail (e, d)])
  /\ (forall e, ~ In e (keys m) -> mails_to e (run table now) = [])
  /\ List.length (mails_of (run table now)) = List.length (keys m).
Proof.
  intros cutoff enabled m. subst cutoff enabled m. rewrite <- cutoff_24h.
  set (c := now - timedelta_days 1). set (en := filter receive_email table).
  assert (NoDup (keys (final table now))) as Hnd
    by apply aggregate_keys_nodup.
  assert (mails_of (run table now) = map digest_mail (final table now)) as Hmails.
  { rewrite run_trace. unfold mails_of. rewrite filter_app.
    assert (forall l, filter is_mail (map query l) = []) as Hq
      by (induction l as [|x l IH]; simpl; [reflexivity | exact IH]).
    assert (forall x : dict (dict DigestEntry),
               filter is_mail (map digest_mail x) = map digest_mail x) as Hm
      by (induction x as [|[e d] x IH]; simpl; [reflexivity | now rewrite IH]).
    now rewrite Hq, Hm. }
  split; [exact Hnd|].
  split.
  { intros e d Hin. unfold user_subscriptions_of in Hin.
    apply aggregate_item in Hin. subst d. apply digest_keys_nodup. }
  split.
  { intros l1 s l2 Hen Hs Hlast.
    assert (qual c s = true) as Q by now apply truthy_true.
    exists (digest c en (owner s)). split.
    - apply enabled_final; [|exact Q]. fold en. rewrite Hen.
      rewrite in_app_iff. simpl. auto.
    - fold en in Hen. rewrite Hen. apply digest_last_write; [exact Q|].
      intros s' Hin Q'. apply Hlast; [exact Hin|]. now apply truthy_true. }
  split.
  { intros l1 s l2 Hen Hlast Hone.
    destruct (truthy (found c s)) eqn:Q.
    - rewrite Hen. apply digest_last_write; [exact Q|].
      intros s' Hin _. now apply Hlast.
    - apply digest_no_entry. intros s' Hin Ho Hk.
      rewrite Hen in Hin. apply in_app_iff in Hin.
      destruct Hin as [Hin|[<-|Hin]].
      + unfold qualifies.
        rewrite (same_user_same_found c s s' (Hone s' Hin Ho Hk) Hk). exact Q.
      + exact Q.
      + exfalso. now apply (Hlast s' Hin Ho). }
  split; [exact Hmails|].
  split.
  { intros e He. unfold keys in He. apply in_map_iff in He.
    destruct He as ([e' d] & <- & Hin). exists d. split; [exact Hin|].
    rewrite run_mails_to. now apply mails_to_present. }
  split.
  { intros e He. rewrite run_mails_to. now apply mails_to_absent. }
  rewrite Hmails. unfold keys. now rewrite !length_map.
Qed.

(** C9. The mapping is keyed by the address and not by the user record. When
    two subscriptions of distinct user records with one address both have new
    articles, the run sends that address a single mail, rendered from one
    digest that holds the keywords of both; and when the two have the same
    keyword, the list of the later one is the one stored, unless a still
    later subscription of that address writes the keyword again. *)
Theorem digest_keyed_by_address table now l1 s1 l2 s2 l3 :
  filter receive_email table = (l1 ++ s1 :: l2 ++ s2 :: l3)%list ->
  user_id s1 <> user_id s2 ->
  owner s1 = owner s2 ->
  found (now - 24 * 3600 * 1000000) s1 <> [] ->
  found (now - 24 * 3600 * 1000000) s2 <> [] ->
  let e := owner s1 in
  let d := digest (now - 24 * 3600 * 1000000) (filter receive_email table) e in
  mails_to e (run table now) = [Mail_sent (mail_subject d) (mail_body d) e]
  /\ In (kw s1) (keys d)
  /\ In (kw s2) (keys d)
  /\ (kw s1 = kw s2 ->
      (forall s', In s' l3 -> found (now - 24 * 3600 * 1000000) s' <> [] ->
                  owner s' = e -> kw s' <> kw s2) ->
      get d (kw s2)
      = Some (title_url_pairs (found (now - 24 * 3600 * 1000000) s2))).
Proof.
  rewrite <- cutoff_24h. set (c := now - timedelta_days 1).
  intros Hen Hid Ho Hf1 Hf2 e d. subst e d.
  assert (qual c s1 = true) as Q1 by now apply truthy_true.
  assert (qual c s2 = true) as Q2 by now apply truthy_true.
  assert (In s1 (filter receive_email table)) as Hin1
    by (rewrite Hen, in_app_iff; simpl; auto).
  assert (In s2 (filter receive_email table)) as Hin2
    by (rewrite Hen, in_app_iff; simpl; rewrite in_app_iff; simpl; auto).
  split; [|split; [|split]].
  - rewrite run_mails_to.
    apply (mails_to_present (owner s1)
             (digest c (filter receive_email table) (owner s1))).
    + apply aggregate_keys_nodup.
    + now apply enabled_final.
  - rewrite digest_keys, insertion_order_in.
    apply (in_map kw). apply filter_In. split; [exact Hin1|].
    now rewrite Q1, String.eqb_refl.
  - rewrite digest_keys, insertion_order_in.
    apply (in_map kw). apply filter_In. split; [exact Hin2|].
    rewrite Q2, <- Ho. now rewrite String.eqb_refl.
  - intros Hk Hlast. rewrite Ho, Hen.
    replace (l1 ++ s1 :: l2 ++ s2 :: l3)%list
      with ((l1 ++ s1 :: l2) ++ s2 :: l3)%list
      by (rewrite <- app_assoc; reflexivity).
    apply digest_last_write; [exact Q2|].
    intros s' Hin Q' Ho'. apply Hlast; [exact Hin | now apply truthy_true|].
    now rewrite Ho.
Qed.

End Claims.

(** *** The properties on the sample data *)

Local Abbreviation sample_run :=
  (send_subscription_emails sample_find_by_id sample_search).

(** The run on the sample table: four rows, three queries, one mail. *)
Example sample_run_trace :
  sample_run sample_table sample_now
  = [ Search_query (sample_find_by_id 1) 3 "cats" 0 true true 0;
      Search_query (sample_find_by_id 1) 3 "dogs" 0 true true 0;
      Search_query (sample_find_by_id 2) 3 "birds" 0 true true 0;
      digest_mail
        ("ann@example.org",
         [ ("cats", [("Cats today", "https://news.example/cats-today")]);
           ("dogs", [("Dogs today", "https://news.example/dogs-today")]) ]) ].
Proof. vm_compute. reflexivity. Qed.

Example sample_mail_text :
  mail_body [ ("cats", [("Cats today", "https://news.example/cats-today")]) ]
  = "Hi there," ++ CRLF ++ " " ++ CRLF
    ++ "There are new articles related to your subscribed search. You can find your subscriptions here: https://www.zeeguu.org/articles/mySearches"
    ++ CRLF ++ "  " ++ CRLF ++ "Search: 'cats': " ++ CRLF
    ++ "- <a href=" ++ DQUOTE ++ "https://news.example/cats-today" ++ DQUOTE
    ++ ">Cats today</a>" ++ LF
    ++ " " ++ CRLF ++ " " ++ CRLF ++ "Cheers," ++ CRLF ++ "The Zeeguu Team".
Proof. vm_compute. reflexivity. Qed.

Lemma muted_subscription_ignored_sample :
  sample_run ([ann_cats; ann_dogs; bob_birds] ++ bob_dogs_muted :: [])%list
    sample_now
  = sample_run ([ann_cats; ann_dogs; bob_birds] ++ [])%list sample_now
  /\ queries_of
       (sample_run
          ([ann_cats; ann_dogs; bob_birds] ++ bob_dogs_muted :: [])%list
          sample_now)
     = map (query_for sample_find_by_id)
         (filter receive_email ([ann_cats; ann_dogs; bob_birds] ++ [])%list)
  /\ ~ In bob_dogs_muted
         (filter receive_email
            ([ann_cats; ann_dogs; bob_birds] ++ bob_dogs_muted :: [])%list).
Proof.
  apply (muted_subscription_ignored sample_find_by_id sample_search
           [ann_cats; ann_dogs; bob_birds] bob_dogs_muted [] sample_now).
  reflexivity.
Defined.

Lemma mail_matches_template_sample :
  send_mail_new_articles_search "ann@example.org"
    [ ("cats", [("Cats today", "https://news.example/cats-today")]);
      ("dogs", [("Dogs today", "https://news.example/dogs-today")]) ] []
  = [ Mail_sent "New articles for 'cats','dogs'"
        ("Hi there," ++ CRLF ++ " " ++ CRLF
         ++ "There are new articles related to your subscribed searches. You can find your subscriptions here: https://www.zeeguu.org/articles/mySearches"
         ++ CRLF ++ " "
         ++ (" " ++ CRLF ++ "Search: 'cats': " ++ CRLF
             ++ "- <a href=" ++ DQUOTE ++ "https://news.example/cats-today"
             ++ DQUOTE ++ ">Cats today</a>" ++ LF)
         ++ (" " ++ CRLF ++ "Search: 'dogs': " ++ CRLF
             ++ "- <a href=" ++ DQUOTE ++ "https://news.example/dogs-today"
             ++ DQUOTE ++ ">Dogs today</a>" ++ LF)
         ++ " " ++ CRLF ++ " " ++ CRLF ++ "Cheers," ++ CRLF
         ++ "The Zeeguu Team")
        "ann@example.org" ].
Proof.
  refine (eq_trans
            (proj1 (mail_matches_template "ann@example.org"
                      [ ("cats", [("Cats today", "https://news.example/cats-today")]);
                        ("dogs", [("Dogs today", "https://news.example/dogs-today")]) ]
                      [] _))
            _).
  - discriminate.
  - vm_compute. reflexivity.
Defined.

Lemma digest_order_preserved_sample :
  In (Mail_sent "New articles for 'cats','dogs'"
        (join CRLF ["Hi there,"; " "; notice 2; " "]
         ++ keyword_block
              ("cats", [("Cats today", "https://news.example/cats-today")])
         ++ keyword_block
              ("dogs", [("Dogs today", "https://news.example/dogs-today")])
         ++ join CRLF [" "; " "; "Cheers,"; "The Zeeguu Team"])
        "ann@example.org")
     (sample_run sample_table sample_now).
Proof.
  exact (proj2 (digest_order_preserved sample_find_by_id sample_search
                  sample_table sample_now)
           "ann@example.org" ann_cats ann_dogs
           eq_refl eq_refl eq_refl).
Defined.

Lemma digest_keyed_by_address_sample :
  mails_to "ann@example.org" (sample_run shared_address_table sample_now)
  = [ digest_mail
        ("ann@example.org",
         [ ("cats", [("More cats", "https://news.example/more-cats")]);
           ("dogs", [("Dogs today", "https://news.example/dogs-today")]) ]) ]
  /\ get (digest_of sample_find_by_id sample_search
            (sample_now - 24 * 3600 * 1000000)
            (filter receive_email shared_address_table) "ann@example.org")
       "cats"
     = Some [("More cats", "https://news.example/more-cats")].
Proof.
  assert (user_id ann_cats <> user_id ann2_cats) as Hid by discriminate.
  assert (found_for sample_find_by_id sample_search
            (sample_now - 24 * 3600 * 1000000) ann_cats <> []) as H1
    by (vm_compute; discriminate).
  assert (found_for sample_find_by_id sample_search
            (sample_now - 24 * 3600 * 1000000) ann2_cats <> []) as H2
    by (vm_compute; discriminate).
  pose proof (digest_keyed_by_address sample_find_by_id sample_search
                shared_address_table sample_now
                [] ann_cats [ann_dogs] ann2_cats []
                eq_refl Hid eq_refl H1 H2) as H.
  cbv zeta in H. destruct H as (Hmail & _ & _ & Hlast).
  split.
  - exact Hmail.
  - apply (Hlast eq_refl). intros s' [].
Defined.

End DigestSpec.

(* ================================================================== *)
(** ** The exercise-outcome endpoint: the properties of the specification *)

Module ExercisesSpec.

Import Exercises Samples.

(** The digit strings of the ASCII instance: not empty, digits only. *)
Lemma ascii_isdigit_false (s : string) :
  ascii_isdigit s = false
  <-> s = EmptyString
      \/ exists c, In c (list_ascii_of_string s) /\ is_ascii_digit c = false.
Proof.
  assert (forall t, all_ascii_digits t = false
                    <-> exists c, In c (list_ascii_of_string t)
                                  /\ is_ascii_digit c = false) as Hall.
  { induction t as [|c t IH]; simpl.
    - split; [discriminate | intros (c & [] & _)].
    - rewrite andb_false_iff, IH. split.
      + intros [H|(c' & Hin & H)]; [exists c; auto | exists c'; auto].
      + intros (c' & [->|Hin] & H); [now left | right; eauto]. }
  destruct s as [|c s].
  - simpl. split; auto.
  - unfold ascii_isdigit. rewrite Hall. split; [auto|].
    intros [H|H]; [discriminate | exact H].
Qed.

Example ascii_isdigit_samples :
  ascii_isdigit "1500" = true /\ ascii_isdigit EmptyString = false
  /\ ascii_isdigit "-5" = false /\ ascii_isdigit "fast" = false
  /\ ascii_isdigit "12.5" = false.
Proof. repeat split. Qed.

Section Claims.

Variable Db : Type.
Variable Bookmark : Type.
Variable int_of_str : string -> option Z.
Variable str_isdigit : string -> bool.
Variable Bookmark_find : value -> Db -> exception + Bookmark.
Variable Bookmark_report_exercise_outcome :
  Bookmark -> value -> value -> value -> Z -> value ->
  Db -> (exception + unit) * Db.

Local Abbreviation handler :=
  (report_exercise_outcome Db Bookmark int_of_str str_isdigit Bookmark_find
     Bookmark_report_exercise_outcome).

Implicit Types (form : MultiDict) (w : world Db).

(** The part of the handler inside [try], for the speed that is recorded. *)
Lemma handler_try form w sid n sp :
  form_get form "session_id" = VStr sid ->
  int_of_str sid = Some n ->
  form_get form "solving_speed" = VStr sp ->
  handler form w
  = match Bookmark_find (form_get form "bookmark_id") (db w) with
    | inl e => (inr "FAIL", Build_world (db w) (stderr w ++ [e])%list)
    | inr bookmark =>
        match
          Bookmark_report_exercise_outcome bookmark (form_get form "source")
            (form_get_default form "outcome" (VStr EmptyString))
            (if negb (str_isdigit sp) then VInt 0 else VStr sp) n
            (form_get form "other_feedback") (db w)
        with
        | (inl e, db') => (inr "FAIL", Build_world db' (stderr w ++ [e])%list)
        | (inr _, db') => (inr "OK", Build_world db' (stderr w))
        end
    end.
Proof.
  intros Hs Hn Hsp. unfold report_exercise_outcome.
  rewrite Hs, Hsp. unfold py_int, py_isdigit. rewrite Hn.
  unfold bind, ret, try_except, find, report, print_exc. simpl.
  destruct (Bookmark_find _ _) as [e|b]; [reflexivity|].
  destruct (str_isdigit sp); simpl;
    destruct (Bookmark_report_exercise_outcome _ _ _ _ _ _ _) as [[e|u] db'];
    reflexivity.
Qed.

(** C8, as the code has it. Once [session_id] has been read as an integer and
    [solving_speed] is present, no error leaves the handler: it answers [OK]
    when the bookmark is found and the outcome recorded, and otherwise logs
    the error and answers [FAIL]. An error in reading [session_id] (absent,
    or not an integer) or [solving_speed] (absent) is raised before the [try]
    and leaves the handler. *)
Theorem errors_inside_try_are_caught form w :
  (forall sid n sp,
      form_get form "session_id" = VStr sid ->
      int_of_str sid = Some n ->
      form_get form "solving_speed" = VStr sp ->
      let speed := if negb (str_isdigit sp) then VInt 0 else VStr sp in
      let recorded bookmark :=
        Bookmark_report_exercise_outcome bookmark (form_get form "source")
          (form_get_default form "outcome" (VStr EmptyString)) speed n
          (form_get form "other_feedback") (db w) in
      (fst (handler form w) = inr "OK" \/ fst (handler form w) = inr "FAIL")
      /\ (fst (handler form w) = inr "OK"
          <-> exists bookmark db',
                Bookmark_find (form_get form "bookmark_id") (db w) = inr bookmark
                /\ recorded bookmark = (inr tt, db'))
      /\ (fst (handler form w) = inr "OK" ->
          stderr (snd (handler form w)) = stderr w)
      /\ (fst (handler form w) = inr "FAIL" ->
          exists e,
            stderr (snd (handler form w)) = (stderr w ++ [e])%list
            /\ (Bookmark_find (form_get form "bookmark_id") (db w) = inl e
                \/ exists bookmark,
                     Bookmark_find (form_get form "bookmark_id") (db w)
                     = inr bookmark
                     /\ fst (recorded bookmark) = inl e)))
  /\ (form_get form "session_id" = VNone -> handler form w = (inl TypeError, w))
  /\ (forall sid,
         form_get form "session_id" = VStr sid -> int_of_str sid = None ->
         handler form w = (inl ValueError, w))
  /\ (forall sid n,
         form_get form "session_id" = VStr sid -> int_of_str sid = Some n ->
         form_get form "solving_speed" = VNone ->
         handler form w = (inl AttributeError, w)).
Proof.
  split; [|split; [|split]].
  - intros sid n sp Hs Hn Hsp speed recorded. subst speed recorded.
    rewrite (handler_try form w sid n sp Hs Hn Hsp).
    destruct (Bookmark_find _ _) as [e|b]; simpl.
    + split; [now right|]. split; [|split].
      * split; [discriminate | intros (b & db' & Hb & _); discriminate].
      * discriminate.
      * intros _. exists e. auto.
    + destruct (Bookmark_report_exercise_outcome _ _ _ _ _ _ _)
        as [[e|[]] db'] eqn:R; simpl.
      * split; [now right|]. split; [|split].
        -- split; [discriminate|].
           intros (b' & db'' & Hb & Hr). injection Hb as <-.
           rewrite R in Hr. discriminate.
        -- discriminate.
        -- intros _. exists e. split; [reflexivity|]. right. exists b.
           rewrite R. auto.
      * split; [now left|]. split; [|split].
        -- split; [|reflexivity]. intros _. exists b, db'. auto.
        -- reflexivity.
        -- discriminate.
  - intros Hs. unfold report_exercise_outcome. now rewrite Hs.
  - intros sid Hs Hn. unfold report_exercise_outcome. rewrite Hs.
    unfold py_int. now rewrite Hn.
  - intros sid n Hs Hn Hsp. unfold report_exercise_outcome.
    rewrite Hs, Hsp. unfold py_int. now rewrite Hn.
Qed.

(** C10. A [solving_speed] that is a string but no digit string (the empty
    string, a negative number, text) is replaced by the integer 0: the
    handler goes on as it does for the speed 0, the outcome is recorded with
    0, and when the bookmark is found and the recording succeeds the answer
    is [OK]. *)
Theorem non_digit_speed_recorded_as_zero form w sid n sp bookmark db' :
  form_get form "session_id" = VStr sid ->
  int_of_str sid = Some n ->
  form_get form "solving_speed" = VStr sp ->
  str_isdigit sp = false ->
  Bookmark_find (form_get form "bookmark_id") (db w) = inr bookmark ->
  Bookmark_report_exercise_outcome bookmark (form_get form "source")
    (form_get_default form "outcome" (VStr EmptyString)) (VInt 0) n
    (form_get form "other_feedback") (db w) = (inr tt, db') ->
  handler form w = (inr "OK", Build_world db' (stderr w))
  /\ handler form w
     = try_except Db
         (bind Db (find Db Bookmark Bookmark_find (form_get form "bookmark_id"))
            (fun b =>
               bind Db
                 (report Db Bookmark Bookmark_report_exercise_outcome b
                    (form_get form "source")
                    (form_get_default form "outcome" (VStr EmptyString))
                    (VInt 0) n (form_get form "other_feedback"))
                 (fun _ => ret Db "OK")))
         (fun e => bind Db (print_exc Db e) (fun _ => ret Db "FAIL"))
         w.
Proof.
  intros Hs Hn Hsp Hd Hb Hr. split.
  - rewrite (handler_try form w sid n sp Hs Hn Hsp), Hb, Hd. simpl.
    now rewrite Hr.
  - unfold report_exercise_outcome. rewrite Hs, Hsp.
    unfold py_int, py_isdigit. rewrite Hn, Hd. reflexivity.
Qed.

End Claims.

(** *** The properties on the sample requests *)

Local Abbreviation sample_handler :=
  (report_exercise_outcome sample_db Z ascii_digits_int ascii_isdigit
     sample_find sample_report).

Example complete_request_ok :
  sample_handler complete_form sample_world
  = (inr "OK",
     Build_world
       [ {| row_bookmark := 42; row_source := VStr "Recognize";
            row_outcome := VStr "Correct"; row_speed := VStr "1500";
            row_session := 7; row_feedback := VNone |} ]
       []).
Proof. vm_compute. reflexivity. Qed.

Example unknown_bookmark_fails :
  sample_handler unknown_bookmark_form sample_world
  = (inr "FAIL", Build_world [] [Raised "NoResultFound"]).
Proof. vm_compute. reflexivity. Qed.

(** The claim as the specification words it fails on a request without
    [session_id]: the [TypeError] of [int(None)] leaves the handler, which
    answers neither [FAIL] nor [OK]. *)
Lemma missing_session_id_propagates :
  sample_handler no_session_form sample_world = (inl TypeError, sample_world)
  /\ fst (sample_handler no_session_form sample_world) <> inr "FAIL"
  /\ fst (sample_handler no_session_form sample_world) <> inr "OK".
Proof. repeat split; vm_compute; discriminate. Qed.

Lemma errors_inside_try_are_caught_sample :
  fst (sample_handler unknown_bookmark_form sample_world) = inr "OK"
  \/ fst (sample_handler unknown_bookmark_form sample_world) = inr "FAIL".
Proof.
  exact (proj1 (proj1 (errors_inside_try_are_caught sample_db Z ascii_digits_int
                         ascii_isdigit sample_find sample_report
                         unknown_bookmark_form sample_world)
                  "7" 7 "1500" eq_refl eq_refl eq_refl)).
Defined.

Lemma non_digit_speed_recorded_as_zero_sample :
  sample_handler negative_speed_form sample_world
  = (inr "OK",
     Build_world
       [ {| row_bookmark := 42; row_source := VStr "Recognize";
            row_outcome := VStr "Correct"; row_speed := VInt 0;
            row_session := 7; row_feedback := VNone |} ]
       []).
Proof.
  exact (proj1 (non_digit_speed_recorded_as_zero sample_db Z ascii_digits_int
                  ascii_isdigit sample_find sample_report
                  negative_speed_form sample_world "7" 7 "-5" 42 _
                  eq_refl eq_refl eq_refl eq_refl eq_refl eq_refl)).
Defined.

End ExercisesSpec.

(* ================================================================== *)
(** ** The digest script: further properties of a run *)

Module DigestRun.

Import PyStr PyDict PyFacts Digest DigestFacts Samples.

Local Arguments String.append : simpl never.

(** The keys in insertion order are no more than the assignments. *)
Lemma key_added_length (ks : list string) (k : string) :
  (List.length (key_added ks k) <= S (List.length ks))%nat.
Proof.
  unfold key_added. destruct (existsb (String.eqb k) ks).
  - lia.
  - rewrite length_app. simpl. lia.
Qed.

Lemma insertion_order_length (l : list string) :
  (List.length (insertion_order l) <= List.length l)%nat.
Proof.
  induction l as [|k l IH] using rev_ind; [simpl; lia|].
  rewrite insertion_order_snoc, length_app. simpl.
  pose proof (key_added_length (insertion_order l) k). lia.
Qed.

Lemma insertion_order_empty (l : list string) :
  insertion_order l = [] <-> l = [].
Proof.
  split; [|intros ->; reflexivity].
  destruct l as [|k l]; [reflexivity|]. intros H.
  assert (In k (insertion_order (k :: l))) as Hin
    by (apply insertion_order_in; now left).
  rewrite H in Hin. destruct Hin.
Qed.

Lemma truthy_empty (A : Type) (l : list A) : truthy l = false -> l = [].
Proof. destruct l; simpl; congruence. Qed.

Lemma filter_queries (A : Type) (f : A -> event) (l : list A) :
  (forall x, is_mail (f x) = false) ->
  filter is_mail (map f l) = []
  /\ filter (fun ev => negb (is_mail ev)) (map f l) = map f l.
Proof.
  intros Hf. induction l as [|x l [IH1 IH2]]; simpl; [auto|].
  rewrite Hf. simpl. rewrite IH2. auto.
Qed.

Lemma filter_mails (m : dict (dict DigestEntry)) :
  filter is_mail (map digest_mail m) = map digest_mail m
  /\ filter (fun ev => negb (is_mail ev)) (map digest_mail m) = [].
Proof.
  induction m as [|[e d] m [IH1 IH2]]; simpl; [auto|].
  rewrite IH1. auto.
Qed.

Section Run.

Variable find_by_id : Z -> User.
Variable article_search_for_user :
  User -> Z -> string -> Z -> bool -> bool -> Z -> list Article.

Local Abbreviation run := (send_subscription_emails find_by_id article_search_for_user).
Local Abbreviation final := (user_subscriptions_of find_by_id article_search_for_user).
Local Abbreviation owner := (owner_email find_by_id).
Local Abbreviation candidates := (articles_for find_by_id article_search_for_user).
Local Abbreviation found := (found_for find_by_id article_search_for_user).
Local Abbreviation qual := (qualifies find_by_id article_search_for_user).
Local Abbreviation digest := (digest_of find_by_id article_search_for_user).
Local Abbreviation query := (query_for find_by_id).
Local Abbreviation kw := (fun s : SearchSubscription => keywords (search s)).

Implicit Types (s : SearchSubscription) (table : list SearchSubscription).
Implicit Types (now : Z) (e : string).

Lemma run_queries table now :
  queries_of (run table now) = map query (filter receive_email table).
Proof.
  rewrite run_trace. unfold queries_of. rewrite filter_app.
  destruct (filter_queries _ query (filter receive_email table)
              (fun _ => eq_refl)) as [_ ->].
  destruct (filter_mails (final table now)) as [_ ->].
  apply app_nil_r.
Qed.

Lemma run_mails table now :
  mails_of (run table now) = map digest_mail (final table now).
Proof.
  rewrite run_trace. unfold mails_of. rewrite filter_app.
  destruct (filter_queries _ query (filter receive_email table)
              (fun _ => eq_refl)) as [-> _].
  destruct (filter_mails (final table now)) as [-> _].
  reflexivity.
Qed.

Lemma final_addresses table now :
  keys (final table now)
  = insertion_order
      (map owner (filter (qual (now - timedelta_days 1))
                    (filter receive_email table))).
Proof. apply aggregate_keys. Qed.

(** X1. A run asks the recommender first and mails afterwards: its trace is
    the queries, one for every row with the flag set and in the order of the
    rows, followed by the mails; no mail is sent before the last query. *)
Theorem queries_precede_mails table now :
  run table now
  = (queries_of (run table now) ++ mails_of (run table now))%list
  /\ queries_of (run table now) = map query (filter receive_email table)
  /\ List.length (queries_of (run table now))
     = List.length (filter receive_email table).
Proof.
  rewrite run_queries, run_mails. split; [apply run_trace|].
  split; [reflexivity | apply length_map].
Qed.

(** X2. The mails go out in the order in which the addresses first got a
    subscription with new articles: the recipients of the mails, as sent, are
    the owners' addresses of the flagged subscriptions with a non-empty
    filtered list, each at the place of its first occurrence. *)
Theorem mails_in_order_of_first_new_article table now :
  map recipient (mails_of (run table now))
  = map Some
      (insertion_order
         (map owner
            (filter (qual (now - 24 * 3600 * 1000000))
               (filter receive_email table)))).
Proof.
  change (now - 24 * 3600 * 1000000) with (now - timedelta_days 1).
  rewrite run_mails, <- final_addresses. unfold keys.
  rewrite !map_map. apply map_ext. intros [e d]. reflexivity.
Qed.

(** X3. No mail is empty: every digest of the mapping a run ends with has at
    least one keyword, and every keyword in it has at least one article, so
    the renderer is never called on an empty mapping or an empty list. *)
Theorem no_empty_digest table now :
  Forall
    (fun item : string * dict DigestEntry =>
       snd item <> []
       /\ Forall (fun entry : string * DigestEntry => snd entry <> [])
            (snd item))
    (final table now)
  /\ mails_of (run table now) = map digest_mail (final table now).
Proof.
  split; [|apply run_mails].
  apply Forall_forall. intros [e d] Hin. cbn [snd].
  assert (d = digest (now - timedelta_days 1) (filter receive_email table) e)
    as Hd by (apply aggregate_item; exact Hin).
  split.
  - assert (In e (keys (final table now))) as Hk
      by (change e with (fst (e, d)); now apply in_map).
    rewrite final_addresses, insertion_order_in in Hk.
    apply in_map_iff in Hk. destruct Hk as (s & Ho & Hs).
    apply filter_In in Hs. destruct Hs as [Hs Q].
    assert (In (kw s) (keys d)) as Hkw.
    { rewrite Hd, digest_keys, insertion_order_in. apply (in_map kw).
      apply filter_In. split; [exact Hs|].
      rewrite Q, Ho. now rewrite String.eqb_refl. }
    intros ->. destruct Hkw.
  - apply Forall_forall. intros [k v] Hk. cbn [snd]. subst d.
    apply in_get_some in Hk; [|apply digest_keys_nodup].
    apply digest_entry_origin in Hk.
    destruct Hk as (s & _ & Q & _ & _ & ->).
    unfold qualifies in Q. apply truthy_true in Q.
    unfold title_url_pairs. intros H. apply map_eq_nil in H. contradiction.
Qed.

(** X4. A run sends at most one mail per flagged subscription with new
    articles, hence at most one per row of the table, and it sends none
    exactly when no flagged subscription has new articles. *)
Theorem mails_bounded_by_subscriptions table now :
  let fresh :=
    filter (qual (now - 24 * 3600 * 1000000)) (filter receive_email table) in
  (List.length (mails_of (run table now)) <= List.length fresh)%nat
  /\ (List.length fresh <= List.length table)%nat
  /\ (mails_of (run table now) = [] <-> fresh = []).
Proof.
  intros fresh. subst fresh.
  change (now - 24 * 3600 * 1000000) with (now - timedelta_days 1).
  set (fresh := filter (qual (now - timedelta_days 1))
                  (filter receive_email table)).
  assert (List.length (mails_of (run table now))
          = List.length (insertion_order (map owner fresh))) as Hlen.
  { rewrite run_mails, length_map. rewrite <- (length_map fst).
    fold (keys (final table now)). now rewrite final_addresses. }
  split; [|split].
  - rewrite Hlen. pose proof (insertion_order_length (map owner fresh)) as H.
    rewrite length_map in H. exact H.
  - unfold fresh.
    pose proof (filter_length_le (qual (now - timedelta_days 1))
                  (filter receive_email table)).
    pose proof (filter_length_le receive_email table). lia.
  - rewrite <- length_zero_iff_nil, Hlen, length_zero_iff_nil.
    rewrite insertion_order_empty. split.
    + apply map_eq_nil.
    + intros ->. reflexivity.
Qed.

(** X5. What the recency filter drops stays dropped: for a later clock the
    kept candidates of a subscription are the kept candidates of the earlier
    clock, filtered again; an article left out of one run is left out of
    every later run. *)
Theorem stale_articles_stay_out s now1 now2 :
  now1 <= now2 ->
  found (now2 - timedelta_days 1) s
  = new_articles_found (now2 - timedelta_days 1)
      (found (now1 - timedelta_days 1) s)
  /\ (forall a : Article,
         In a (candidates s) ->
         ~ In a (found (now1 - timedelta_days 1) s) ->
         ~ In a (found (now2 - timedelta_days 1) s)).
Proof.
  intros Hle.
  assert (found (now2 - timedelta_days 1) s
          = new_articles_found (now2 - timedelta_days 1)
              (found (now1 - timedelta_days 1) s)) as Heq.
  { unfold found_for, new_articles_found.
    induction (candidates s) as [|a l IH]; [reflexivity|].
    cbn [filter].
    destruct (published_time a >? now2 - timedelta_days 1) eqn:E2.
    - assert ((published_time a >? now1 - timedelta_days 1) = true) as ->.
      { rewrite Z.gtb_ltb, Z.ltb_lt in *. lia. }
      cbn [filter]. rewrite E2. now rewrite IH.
    - destruct (published_time a >? now1 - timedelta_days 1);
        cbn [filter]; [rewrite E2|]; exact IH. }
  split; [exact Heq|].
  intros a _ Hout Hin. apply Hout. rewrite Heq in Hin.
  unfold new_articles_found in Hin. apply filter_In in Hin. tauto.
Qed.

(** X6. When the recommender honours the limit of 3 it is called with, no
    keyword of any digest lists more than 3 articles. *)
Theorem at_most_three_articles_per_keyword table now :
  (forall user terms,
      (List.length (article_search_for_user user 3 terms 0 true true 0) <= 3)%nat) ->
  Forall
    (fun item : string * dict DigestEntry =>
       Forall (fun entry : string * DigestEntry =>
                 (List.length (snd entry) <= 3)%nat)
         (snd item))
    (final table now).
Proof.
  intros Hlimit. apply Forall_forall. intros [e d] Hin. cbn [snd].
  apply aggregate_item in Hin. subst d.
  apply Forall_forall. intros [k v] Hk. cbn [snd].
  apply in_get_some in Hk; [|apply digest_keys_nodup].
  apply digest_entry_origin in Hk. destruct Hk as (s & _ & _ & _ & _ & ->).
  unfold title_url_pairs, found_for, new_articles_found, articles_for.
  rewrite length_map.
  etransitivity; [apply filter_length_le | apply Hlimit].
Qed.

(** The mail to one address, from the flagged subscriptions filed under it
    that have new articles. *)
Lemma mail_of_address table now e :
  mails_to e (run table now)
  = if truthy (filter (fun s => qual (now - timedelta_days 1) s
                                && String.eqb (owner s) e)
                 (filter receive_email table))
    then [digest_mail
            (e, digest (now - timedelta_days 1)
                  (filter receive_email table) e)]
    else [].
Proof.
  rewrite run_trace. unfold mails_to. rewrite filter_app.
  change (filter (sent_to e) (map query (filter receive_email table)))
    with (mails_to e (map query (filter receive_email table))).
  rewrite mails_to_queries. cbn [app].
  change (filter (sent_to e) (map digest_mail (final table now)))
    with (mails_to e (map digest_mail (final table now))).
  set (c := now - timedelta_days 1). set (en := filter receive_email table).
  destruct (truthy (filter (fun s => qual c s && String.eqb (owner s) e) en))
    eqn:T.
  - apply truthy_true in T.
    destruct (filter (fun s => qual c s && String.eqb (owner s) e) en)
      as [|s l] eqn:F; [contradiction|].
    assert (In s (filter (fun s => qual c s && String.eqb (owner s) e) en))
      as Hs by (rewrite F; now left).
    apply filter_In in Hs. destruct Hs as [Hs Hq].
    apply andb_true_iff in Hq. destruct Hq as [Q Ho].
    apply String.eqb_eq in Ho. subst e.
    apply mails_to_present; [apply aggregate_keys_nodup|].
    now apply aggregate_has_key.
  - apply truthy_empty in T. apply mails_to_absent.
    unfold final, user_subscriptions_of. fold c en.
    rewrite aggregate_keys, insertion_order_in. intros Hin.
    apply in_map_iff in Hin. destruct Hin as (s & Ho & Hs).
    apply filter_In in Hs. destruct Hs as [Hs Q].
    assert (In s (filter (fun s => qual c s && String.eqb (owner s) e) en))
      as Hin.
    { apply filter_In. split; [exact Hs|]. rewrite Q, Ho.
      now rewrite String.eqb_refl. }
    rewrite T in Hin. destruct Hin.
Qed.

(** X7. The mail of one address does not depend on what is filed under
    another: adding or removing a row of the table whose owner has a
    different address leaves the mail sent to the address, or its absence,
    as it is. *)
Theorem other_users_rows_do_not_matter table1 s table2 now e :
  owner s <> e ->
  mails_to e (run (table1 ++ s :: table2) now)
  = mails_to e (run (table1 ++ table2) now).
Proof.
  intros Hne. rewrite !mail_of_address.
  assert (forall t,
             filter (fun s0 => qual (now - timedelta_days 1) s0
                               && String.eqb (owner s0) e)
               (filter receive_email t)
             = filter (fun s0 => receive_email s0
                                 && (qual (now - timedelta_days 1) s0
                                     && String.eqb (owner s0) e)) t) as Hff.
  { induction t as [|x t IH]; [reflexivity|]. cbn [filter].
    destruct (receive_email x); cbn [filter andb]; now rewrite IH. }
  assert (filter (fun s0 => qual (now - timedelta_days 1) s0
                            && String.eqb (owner s0) e)
            (filter receive_email (table1 ++ s :: table2))
          = filter (fun s0 => qual (now - timedelta_days 1) s0
                              && String.eqb (owner s0) e)
              (filter receive_email (table1 ++ table2))) as Hsame.
  { rewrite !Hff, !filter_app. cbn [filter].
    destruct (String.eqb_spec (owner s) e) as [E|_]; [contradiction|].
    now rewrite !andb_false_r. }
  rewrite !digest_fold, Hsame. reflexivity.
Qed.

End Run.

(** *** On the sample data *)

Lemma stale_articles_stay_out_sample :
  found_for sample_find_by_id sample_search
    (sample_now + 10 - timedelta_days 1) ann_dogs
  = new_articles_found (sample_now + 10 - timedelta_days 1)
      (found_for sample_find_by_id sample_search
         (sample_now - timedelta_days 1) ann_dogs).
Proof.
  refine (proj1 (stale_articles_stay_out sample_find_by_id sample_search
                   ann_dogs sample_now (sample_now + 10) _)).
  unfold sample_now. lia.
Defined.

Lemma at_most_three_articles_per_keyword_sample :
  Forall
    (fun item : string * dict DigestEntry =>
       Forall (fun entry : string * DigestEntry =>
                 (List.length (snd entry) <= 3)%nat)
         (snd item))
    (user_subscriptions_of sample_find_by_id sample_search sample_table
       sample_now).
Proof.
  apply (at_most_three_articles_per_keyword sample_find_by_id sample_search).
  intros user terms. unfold sample_search.
  destruct (String.eqb terms "cats");
    [destruct (Z.eqb (id user) 3); simpl; lia|].
  destruct (String.eqb terms "dogs"); [simpl; lia|].
  destruct (String.eqb terms "birds"); simpl; lia.
Defined.

Lemma other_users_rows_do_not_matter_sample :
  mails_to "ann@example.org"
    (send_subscription_emails sample_find_by_id sample_search
       ([ann_cats; ann_dogs] ++ bob_birds :: [bob_dogs_muted])%list sample_now)
  = mails_to "ann@example.org"
      (send_subscription_emails sample_find_by_id sample_search
         ([ann_cats; ann_dogs] ++ [bob_dogs_muted])%list sample_now).
Proof.
  apply (other_users_rows_do_not_matter sample_find_by_id sample_search).
  discriminate.
Defined.

End DigestRun.

(* ================================================================== *)
(** ** The exercise-outcome endpoint: further properties *)

Module ExercisesRequests.

Import Exercises Samples.

(** *** Reading the form *)

Lemma form_get_default_skip (f1 f2 : MultiDict) (k v key : string) (d : value) :
  k <> key ->
  form_get_default (f1 ++ (k, v) :: f2)%list key d = form_get_default (f1 ++ f2)%list key d.
Proof.
  intros Hne. induction f1 as [|[k' v'] f1 IH]; simpl.
  - destruct (String.eqb_spec k key); [contradiction | reflexivity].
  - destruct (String.eqb k' key); [reflexivity | exact IH].
Qed.


Lemma form_get_absent (form : MultiDict) (key : string) (d : value) :
  form_get form key = VNone -> form_get_default form key d = d.
Proof.
  unfold form_get. induction form as [|[k v] form IH]; simpl; [reflexivity|].
  destruct (String.eqb k key); [discriminate | exact IH].
Qed.

Lemma form_get_default_snoc_other
    (form : MultiDict) (k v key : string) (d : value) :
  k <> key ->
  form_get_default (form ++ [(k, v)])%list key d = form_get_default form key d.
Proof.
  intros Hne. rewrite (form_get_default_skip form [] k v key d Hne).
  now rewrite app_nil_r.
Qed.

Lemma form_get_default_snoc_absent (form : MultiDict) (key v : string) (d : value) :
  form_get form key = VNone ->
  form_get_default (form ++ [(key, v)])%list key d = VStr v.
Proof.
  unfold form_get. induction form as [|[k' v'] form IH]; simpl.
  - now rewrite String.eqb_refl.
  - destruct (String.eqb k' key); [discriminate | exact IH].
Qed.

Section Requests.

Variable Db : Type.
Variable Bookmark : Type.
Variable int_of_str : string -> option Z.
Variable str_isdigit : string -> bool.
Variable Bookmark_find : value -> Db -> exception + Bookmark.
Variable Bookmark_report_exercise_outcome :
  Bookmark -> value -> value -> value -> Z -> value ->
  Db -> (exception + unit) * Db.

Local Abbreviation handler :=
  (report_exercise_outcome Db Bookmark int_of_str str_isdigit Bookmark_find
     Bookmark_report_exercise_outcome).

Implicit Types (form : MultiDict) (w : world Db).

(** X8. A [solving_speed] that is a digit string is handed on as that
    string: it is not turned into an integer, unlike the 0 that replaces any
    other string. *)
Theorem digit_speed_passed_as_text form w sid n sp bookmark db' :
  form_get form "session_id" = VStr sid ->
  int_of_str sid = Some n ->
  form_get form "solving_speed" = VStr sp ->
  str_isdigit sp = true ->
  Bookmark_find (form_get form "bookmark_id") (db w) = inr bookmark ->
  Bookmark_report_exercise_outcome bookmark (form_get form "source")
    (form_get_default form "outcome" (VStr EmptyString)) (VStr sp) n
    (form_get form "other_feedback") (db w) = (inr tt, db') ->
  handler form w = (inr "OK", Build_world db' (stderr w)).
Proof.
  intros Hs Hn Hsp Hd Hb Hr. unfold report_exercise_outcome.
  rewrite Hs, Hsp. unfold py_int, py_isdigit. rewrite Hn.
  unfold bind, ret, try_except, find, report. simpl.
  rewrite Hb, Hd. simpl. now rewrite Hr.
Qed.

(** X9. The handler reads six fields of the form and no other: a field
    with any other name, wherever it stands in the request, changes neither
    the answer nor what is recorded. *)
Theorem unread_fields_ignored (f1 f2 : MultiDict) (k v : string) w :
  ~ In k ["outcome"; "source"; "solving_speed"; "bookmark_id";
          "other_feedback"; "session_id"] ->
  handler (f1 ++ (k, v) :: f2)%list w = handler (f1 ++ f2)%list w.
Proof.
  intros Hk. unfold report_exercise_outcome, form_get.
  rewrite !(form_get_default_skip f1 f2 k v);
    try (intros ->; apply Hk; simpl; tauto).
  reflexivity.
Qed.

(** X10. A request without the field [outcome] is handled as one with an
    empty [outcome]: the default of the lookup is the empty string, not
    [None]. *)
Theorem missing_outcome_is_empty form w :
  form_get form "outcome" = VNone ->
  handler (form ++ [("outcome", EmptyString)])%list w = handler form w.
Proof.
  intros Habs. unfold report_exercise_outcome, form_get.
  rewrite (form_get_default_snoc_absent form "outcome" EmptyString _ Habs).
  rewrite (form_get_absent form "outcome" (VStr EmptyString) Habs).
  rewrite !(form_get_default_snoc_other form "outcome" EmptyString)
    by discriminate.
  reflexivity.
Qed.


(** X12. When the bookmark is not found nothing is recorded: the handler
    answers [FAIL], logs the error of the lookup, and leaves the database
    as it was. *)
Theorem unknown_bookmark_records_nothing form w sid n sp e :
  form_get form "session_id" = VStr sid ->
  int_of_str sid = Some n ->
  form_get form "solving_speed" = VStr sp ->
  Bookmark_find (form_get form "bookmark_id") (db w) = inl e ->
  handler form w = (inr "FAIL", Build_world (db w) (stderr w ++ [e])%list).
Proof.
  intros Hs Hn Hsp Hb. unfold report_exercise_outcome.
  rewrite Hs, Hsp. unfold py_int, py_isdigit. rewrite Hn.
  unfold bind, ret, try_except, find, report, print_exc. simpl.
  now rewrite Hb.
Qed.

End Requests.

(** *** On the sample requests *)

Local Abbreviation sample_handler :=
  (report_exercise_outcome sample_db Z ascii_digits_int ascii_isdigit
     sample_find sample_report).

Lemma digit_speed_passed_as_text_sample :
  sample_handler complete_form sample_world
  = (inr "OK",
     Build_world
       [ {| row_bookmark := 42; row_source := VStr "Recognize";
            row_outcome := VStr "Correct"; row_speed := VStr "1500";
            row_session := 7; row_feedback := VNone |} ]
       []).
Proof.
  exact (digit_speed_passed_as_text sample_db Z ascii_digits_int ascii_isdigit
           sample_find sample_report complete_form sample_world
           "7" 7 "1500" 42 _
           eq_refl eq_refl eq_refl eq_refl eq_refl eq_refl).
Defined.

Lemma unread_fields_ignored_sample :
  sample_handler
    ([("outcome", "Correct"); ("source", "Recognize")]
     ++ ("speed", "12") :: [("solving_speed", "1500"); ("bookmark_id", "42");
                            ("session_id", "7")])%list
    sample_world
  = sample_handler
      ([("outcome", "Correct"); ("source", "Recognize")]
       ++ [("solving_speed", "1500"); ("bookmark_id", "42");
           ("session_id", "7")])%list
      sample_world.
Proof.
  apply (unread_fields_ignored sample_db Z ascii_digits_int ascii_isdigit
           sample_find sample_report).
  simpl. intros [H|[H|[H|[H|[H|[H|[]]]]]]]; discriminate H.
Defined.

Lemma missing_outcome_is_empty_sample :
  sample_handler
    ([("solving_speed", "1500"); ("bookmark_id", "42"); ("session_id", "7")]
     ++ [("outcome", EmptyString)])%list
    sample_world
  = sample_handler
      [("solving_speed", "1500"); ("bookmark_id", "42"); ("session_id", "7")]
      sample_world.
Proof.
  apply (missing_outcome_is_empty sample_db Z ascii_digits_int ascii_isdigit
           sample_find sample_report).
  reflexivity.
Defined.

Lemma unknown_bookmark_records_nothing_sample :
  sample_handler unknown_bookmark_form sample_world
  = (inr "FAIL", Build_world [] [Raised "NoResultFound"]).
Proof.
  exact (unknown_bookmark_records_nothing sample_db Z ascii_digits_int
           ascii_isdigit sample_find sample_report unknown_bookmark_form
           sample_world "7" 7 "1500" (Raised "NoResultFound")
           eq_refl eq_refl eq_refl eq_refl).
Defined.

End ExercisesRequests.

(* ================================================================== *)
(** ** The exercise-log endpoint: properties *)

Module ExerciseLogSpec.

Import PyDict Exercises ExerciseLog.

Local Ltac euclid := Z.to_euclidean_division_equations; lia.

(** *** Digits *)

Lemma digit_inj (a b : Z) :
  0 <= a <= 9 -> 0 <= b <= 9 -> digit a = digit b -> a = b.
Proof.
  intros Ha Hb H. unfold digit in H.
  apply (f_equal nat_of_ascii) in H.
  rewrite !nat_ascii_embedding in H by lia. lia.
Qed.

Lemma decimal_four (y : Z) :
  1000 <= y <= 9999 ->
  decimal 4 y EmptyString
  = String (digit (y / 1000))
      (String (digit (y / 100 mod 10))
         (String (digit (y / 10 mod 10))
            (String (digit (y mod 10)) EmptyString))).
Proof.
  intros Hy. cbn [decimal].
  assert (y / 10 / 10 = y / 100) as E2 by euclid.
  assert (y / 10 / 10 / 10 = y / 1000) as E3 by euclid.
  assert ((y <? 10) = false) as -> by (apply Z.ltb_ge; lia).
  assert ((y / 10 <? 10) = false) as -> by (apply Z.ltb_ge; euclid).
  rewrite E2.
  assert ((y / 100 <? 10) = false) as -> by (apply Z.ltb_ge; euclid).
  rewrite <- E2, E3.
  assert ((y / 1000 <? 10) = true) as -> by (apply Z.ltb_lt; euclid).
  rewrite E2.
  assert ((y / 1000) mod 10 = y / 1000) as -> by euclid.
  reflexivity.
Qed.

Lemma strftime_digits (t : datetime) :
  1000 <= year t <= 9999 ->
  strftime_mdY t
  = String (digit (month t / 10))
      (String (digit (month t mod 10))
         (String "/"
            (String (digit (day t / 10))
               (String (digit (day t mod 10))
                  (String "/"
                     (String (digit (year t / 1000))
                        (String (digit (year t / 100 mod 10))
                           (String (digit (year t / 10 mod 10))
                              (String (digit (year t mod 10))
                                 EmptyString))))))))).
Proof.
  intros Hy. unfold strftime_mdY, two_digits.
  rewrite (decimal_four (year t) Hy). reflexivity.
Qed.


(** X14. The text tells the day and nothing else: two valid dates have the
    same text exactly when they have the same year, month and day, whatever
    the time of day. *)
Theorem time_text_tells_the_day (t1 t2 : datetime) :
  1000 <= year t1 <= 9999 -> 1 <= month t1 <= 12 -> 1 <= day t1 <= 31 ->
  1000 <= year t2 <= 9999 -> 1 <= month t2 <= 12 -> 1 <= day t2 <= 31 ->
  (strftime_mdY t1 = strftime_mdY t2
   <-> year t1 = year t2 /\ month t1 = month t2 /\ day t1 = day t2).
Proof.
  intros Hy1 Hm1 Hd1 Hy2 Hm2 Hd2. split.
  - rewrite (strftime_digits t1 Hy1), (strftime_digits t2 Hy2).
    intros H. injection H as M1 M0 D1 D0 Y3 Y2 Y1 Y0.
    apply digit_inj in M1; [|euclid|euclid].
    apply digit_inj in M0; [|euclid|euclid].
    apply digit_inj in D1; [|euclid|euclid].
    apply digit_inj in D0; [|euclid|euclid].
    apply digit_inj in Y3; [|euclid|euclid].
    apply digit_inj in Y2; [|euclid|euclid].
    apply digit_inj in Y1; [|euclid|euclid].
    apply digit_inj in Y0; [|euclid|euclid].
    repeat split; euclid.
  - intros (Hy & Hm & Hd). unfold strftime_mdY. now rewrite Hy, Hm, Hd.
Qed.

Section Endpoint.

Variable Response : Type.
Variable json_result : list (dict value) -> Response.
Variable Bookmark_first_by_id : string -> option Bookmark.

Local Abbreviation endpoint :=
  (get_exercise_log_for_bookmark Response json_result Bookmark_first_by_id).

Lemma append_loop (A B : Type) (f : A -> B) (l : list A) (acc : list B) :
  fold_left (fun acc x => (acc ++ [f x])%list) l acc = (acc ++ map f l)%list.
Proof.
  revert acc; induction l as [|x l IH]; intros acc; simpl.
  - now rewrite app_nil_r.
  - rewrite IH, <- app_assoc. reflexivity.
Qed.

(** X15. For an id that no bookmark has the endpoint does not answer with
    an empty log: the [AttributeError] of reading [exercise_log] off [None]
    leaves it. For the id of a bookmark it answers with one entry per
    exercise of the log, in the order of the log, and with the empty list
    for an empty log. *)
Theorem exercise_log_answer (bookmark_id : string) :
  (Bookmark_first_by_id bookmark_id = None ->
   endpoint bookmark_id = inl AttributeError)
  /\ (forall bookmark,
         Bookmark_first_by_id bookmark_id = Some bookmark ->
         endpoint bookmark_id
         = inr (json_result (map exercise_entry (exercise_log bookmark)))
         /\ List.length (map exercise_entry (exercise_log bookmark))
            = List.length (exercise_log bookmark)
         /\ (exercise_log bookmark = [] ->
             endpoint bookmark_id = inr (json_result []))).
Proof.
  unfold get_exercise_log_for_bookmark. split.
  - intros ->. reflexivity.
  - intros bookmark ->. rewrite append_loop. cbn [app].
    split; [reflexivity|]. split; [apply length_map|].
    intros ->. reflexivity.
Qed.

End Endpoint.

(** *** On the sample rows *)

Example sample_time_text : strftime_mdY new_year_morning = "01/05/2024".
Proof. reflexivity. Qed.


Lemma time_text_tells_the_day_sample :
  strftime_mdY new_year_morning = strftime_mdY new_year_evening.
Proof.
  apply (time_text_tells_the_day new_year_morning new_year_evening);
    simpl; lia.
Defined.

Lemma exercise_log_answer_sample :
  get_exercise_log_for_bookmark (list (dict value)) (fun l => l)
    sample_bookmarks "43"
  = inl AttributeError.
Proof.
  apply (proj1 (exercise_log_answer (list (dict value)) (fun l => l)
                  sample_bookmarks "43")).
  reflexivity.
Defined.

End ExerciseLogSpec.
